(** * eurocontrol-acft-perf: a shallow embedding of the scraper

    The program pages through an ASP.NET search grid, collects aircraft
    designators, fetches one detail page per designator, scrapes eight
    fields out of it and writes them as CSV.  This file embeds the
    functions of [eurocontrol-acft-perf.py] as Rocq functions and proves
    properties of them.

    Conventions of the embedding.
    - Python [str] is [string]; the text is taken to be ASCII, so [\d] and
      [str.strip] are read on ASCII digits and ASCII white space.
    - Python exceptions are values of [exn]; a function that can raise
      returns [result].
    - A Python [float] is represented by the exact rational value of the
      decimal literal handed to [float()]; the rounding to binary64 is not
      modelled.
    - A Python [dict] is an association list in insertion order, updated
      with [dict_set].
    - [logging] calls have no effect on any result and are left out.
    - Opening and writing a file succeed in the model; what the program
      does when they raise is outside it. *)

From Stdlib Require Import List String Ascii Bool Arith ZArith QArith Lia.
From Stdlib Require Import DecimalString Qpower Qreduction.
From Stdlib Require DecimalZ DecimalPos.
Import ListNotations.
Open Scope string_scope.
Open Scope list_scope.

(** ** Exceptions and results *)

Inductive exn : Type :=
| IndexError
| ValueError
| TypeError
| KeyError
| TransportError
| UnpicklingError.

(** [OutOfFuel] is not a Python outcome: it marks a loop of the model that
    was cut before the Python loop would have ended. *)
Inductive result (A : Type) : Type :=
| Ok (a : A)
| Raise (e : exn)
| OutOfFuel.

Arguments Ok {A} a.
Arguments Raise {A} e.
Arguments OutOfFuel {A}.

Definition rbind {A B : Type} (r : result A) (f : A -> result B) : result B :=
  match r with
  | Ok a => f a
  | Raise e => Raise e
  | OutOfFuel => OutOfFuel
  end.

Declare Scope res_scope.
Delimit Scope res_scope with res.
Notation "x <- r ;; k" := (rbind r (fun x => k))
  (at level 61, r at next level, right associativity) : res_scope.

(** ** Characters and strings *)

Definition chars (s : string) : list ascii := list_ascii_of_string s.
Definition text_of (l : list ascii) : string := string_of_list_ascii l.

Definition is_digit (c : ascii) : bool :=
  let n := nat_of_ascii c in (48 <=? n)%nat && (n <=? 57)%nat.

Definition is_sign (c : ascii) : bool :=
  Ascii.eqb c "-" || Ascii.eqb c "+".

Definition is_dot (c : ascii) : bool := Ascii.eqb c ".".

Definition is_e (c : ascii) : bool := Ascii.eqb c "e" || Ascii.eqb c "E".

(** White space as [str.strip] and [str.isspace] see it on ASCII:
    [\t \n \v \f \r], the separators [\x1c]..[\x1f], and the blank. *)
Definition is_space (c : ascii) : bool :=
  let n := nat_of_ascii c in
  ((9 <=? n)%nat && (n <=? 13)%nat) || ((28 <=? n)%nat && (n <=? 32)%nat).

Fixpoint lstrip (l : list ascii) : list ascii :=
  match l with
  | c :: l' => if is_space c then lstrip l' else l
  | [] => []
  end.

Definition strip (s : string) : string :=
  text_of (rev (lstrip (rev (lstrip (chars s))))).

Definition digit_val (c : ascii) : Z := Z.of_nat (nat_of_ascii c) - 48.

(** Value of a run of decimal digits, most significant first. *)
Definition digits_val (l : list ascii) : Z :=
  fold_left (fun acc c => 10 * acc + digit_val c)%Z l 0%Z.

(** ** Regular expressions: the fragment of [re] that [NUMBER_PATTERN] uses

    A backtracking matcher in continuation style: alternatives are tried
    left to right, [?], [*] and [+] are greedy, and a group records the
    text consumed by its body on the branch that finally succeeds. *)

Inductive regex : Type :=
| Cls (p : ascii -> bool)
| Cat (r1 r2 : regex)
| Alt (r1 r2 : regex)
| Opt (r : regex)
| Star (p : ascii -> bool)
| Plus (p : ascii -> bool)
| Group (i : nat) (r : regex).

(** Captured groups: group number and captured text. *)
Definition groups : Type := list (nat * list ascii).

Definition consumed (s s' : list ascii) : list ascii :=
  firstn (List.length s - List.length s') s.

Fixpoint group_text (i : nat) (g : groups) : option (list ascii) :=
  match g with
  | [] => None
  | (j, t) :: g' => if Nat.eqb i j then Some t else group_text i g'
  end.

Section Matcher.
Context {A : Type}.

Fixpoint star (p : ascii -> bool) (s : list ascii)
         (k : list ascii -> option A) : option A :=
  match s with
  | c :: s' =>
      if p c then
        match star p s' k with
        | Some x => Some x
        | None => k s
        end
      else k s
  | [] => k s
  end.

Fixpoint rmatch (r : regex) (s : list ascii) (g : groups)
         (k : list ascii -> groups -> option A) : option A :=
  match r with
  | Cls p =>
      match s with
      | c :: s' => if p c then k s' g else None
      | [] => None
      end
  | Cat r1 r2 => rmatch r1 s g (fun s1 g1 => rmatch r2 s1 g1 k)
  | Alt r1 r2 =>
      match rmatch r1 s g k with
      | Some x => Some x
      | None => rmatch r2 s g k
      end
  | Opt r1 =>
      match rmatch r1 s g k with
      | Some x => Some x
      | None => k s g
      end
  | Star p => star p s (fun s' => k s' g)
  | Plus p =>
      match s with
      | c :: s' => if p c then star p s' (fun s'' => k s'' g) else None
      | [] => None
      end
  | Group i r1 =>
      rmatch r1 s g (fun s' g' => k s' ((i, consumed s s') :: g'))
  end.
End Matcher.

(** One match attempt anchored at the head of [s]: the rest of the input
    after the match and the groups. *)
Definition match_here (r : regex) (s : list ascii)
  : option (list ascii * groups) :=
  rmatch r s [] (fun s' g => Some (s', g)).

(** The tuple [findall] builds for a pattern with [n] groups: the text of
    groups 1..n, a group that did not take part giving the empty string. *)
Definition group_tuple (n : nat) (g : groups) : list string :=
  map (fun i => match group_text i g with
                | Some t => text_of t
                | None => EmptyString
                end) (seq 1 n).

(** [findall]: scan left to right; after a match the scan resumes at its
    end ([skip] counts the characters of the match still to pass). *)
Fixpoint findall_from (r : regex) (n : nat) (skip : nat) (s : list ascii)
  : list (list string) :=
  match skip with
  | S k =>
      match s with
      | [] => []
      | _ :: s' => findall_from r n k s'
      end
  | O =>
      match match_here r s with
      | Some (rest, g) =>
          group_tuple n g ::
            match s with
            | [] => []
            | _ :: s' => findall_from r n (List.length s - List.length rest - 1) s'
            end
      | None =>
          match s with
          | [] => []
          | _ :: s' => findall_from r n 0 s'
          end
      end
  end.

Definition findall (r : regex) (n : nat) (s : string) : list (list string) :=
  findall_from r n 0 (chars s).

(** The pattern of the source, written with blanks between its parts:
    [[-+]? ( \d+ ( \. \d* )? | \. \d+ ) ( [eE] [-+]? \d+ )?].
    Group 1 is the mantissa, group 2 its fraction, group 3 the exponent;
    the sign is outside every group. *)
Definition NUMBER_PATTERN : regex :=
  Cat (Opt (Cls is_sign))
   (Cat (Group 1 (Alt (Cat (Plus is_digit)
                           (Opt (Group 2 (Cat (Cls is_dot) (Star is_digit)))))
                      (Cat (Cls is_dot) (Plus is_digit))))
        (Opt (Group 3 (Cat (Cls is_e)
                           (Cat (Opt (Cls is_sign)) (Plus is_digit)))))).

(** ** [float()] and [int()] on text *)

Fixpoint span_digits (l : list ascii) : list ascii * list ascii :=
  match l with
  | c :: l' =>
      if is_digit c then
        let '(d, rest) := span_digits l' in (c :: d, rest)
      else ([], l)
  | [] => ([], [])
  end.

Definition split_sign (l : list ascii) : bool * list ascii :=
  match l with
  | c :: l' =>
      if Ascii.eqb c "-" then (true, l')
      else if Ascii.eqb c "+" then (false, l')
      else (false, l)
  | [] => (false, [])
  end.

Definition pow10 (e : Z) : Q := Qpower (10 # 1) e.

(** [float(s)] for a decimal literal
    [[sign] (digits [. [digits]] | . digits) [(e|E) [sign] digits]];
    any other text is a [ValueError] here ([inf], [nan], digit separators
    and surrounding blanks, which Python also accepts, never reach the
    calls of this program that succeed). *)
Definition py_float (s : string) : result Q :=
  let '(neg, l0) := split_sign (chars s) in
  let '(ip, l1) := span_digits l0 in
  let '(fp, l2) :=
    match l1 with
    | c :: l1' => if is_dot c then span_digits l1' else ([], l1)
    | [] => ([], [])
    end in
  if (List.length ip + List.length fp =? 0)%nat then Raise ValueError
  else
    (e <- match l2 with
          | [] => Ok 0%Z
          | c :: l3 =>
              if is_e c then
                let '(eneg, l4) := split_sign l3 in
                let '(ed, l5) := span_digits l4 in
                match ed, l5 with
                | _ :: _, [] =>
                    Ok (if eneg then (- digits_val ed)%Z else digits_val ed)
                | _, _ => Raise ValueError
                end
              else Raise ValueError
          end ;;
     let m := digits_val (ip ++ fp) in
     let q := (inject_Z m * pow10 (e - Z.of_nat (List.length fp)))%Q in
     Ok (Qred (if neg then Qopp q else q)))%res.

(** ** [strip_units] *)

Definition nth_result {A : Type} (l : list A) (i : nat) : result A :=
  match nth_error l i with
  | Some a => Ok a
  | None => Raise IndexError
  end.

Definition strip_units (value : string) : result Q :=
  (let values := findall NUMBER_PATTERN 3 value in
   v0 <- nth_result values 0 ;;
   g1 <- nth_result v0 0 ;;
   py_float g1)%res.

(** The text of the first match of a pattern in [s], the whole match
    (group 0), which [findall] does not report when the pattern has
    groups.  Used to say what a caller could have expected. *)
Fixpoint search_from (r : regex) (s : list ascii) : option (list ascii) :=
  match match_here r s with
  | Some (rest, _) => Some (consumed s rest)
  | None =>
      match s with
      | [] => None
      | _ :: s' => search_from r s'
      end
  end.

Definition first_match (r : regex) (s : string) : option string :=
  option_map text_of (search_from r (chars s)).

(** White space as [int()] skips it around an ASCII literal: [\t \n \v \f
    \r] and the blank.  The separators [\x1c]..[\x1f], which [str.strip]
    removes, are not skipped: [int] of a text that starts with one raises
    [ValueError]. *)
Definition is_int_space (c : ascii) : bool :=
  let n := nat_of_ascii c in
  ((9 <=? n)%nat && (n <=? 13)%nat) || (n =? 32)%nat.

Fixpoint int_lstrip (l : list ascii) : list ascii :=
  match l with
  | c :: l' => if is_int_space c then int_lstrip l' else l
  | [] => []
  end.

Definition int_strip (l : list ascii) : list ascii :=
  rev (int_lstrip (rev (int_lstrip l))).

(** CPython's default limit on the number of digits of a decimal literal
    handed to [int()]. *)
Definition INT_MAX_STR_DIGITS : Z := 4300.

(** [int(s)]: white space skipped at both ends, an optional sign, then
    digits, where single underscores may stand between two digits; more
    digits than [INT_MAX_STR_DIGITS] raise [ValueError]. *)
Fixpoint int_digits (l : list ascii) (after_digit : bool)
  : option (list ascii) :=
  match l with
  | [] => if after_digit then Some [] else None
  | c :: l' =>
      if is_digit c then option_map (cons c) (int_digits l' true)
      else if Ascii.eqb c "_" && after_digit then int_digits l' false
      else None
  end.

Definition py_int (s : string) : result Z :=
  let '(neg, l) := split_sign (int_strip (chars s)) in
  match int_digits l false with
  | Some ds =>
      if (INT_MAX_STR_DIGITS <? Z.of_nat (List.length ds))%Z
      then Raise ValueError
      else Ok (if neg then (- digits_val ds)%Z else digits_val ds)
  | None => Raise ValueError
  end.

(** [str(i)] for an [int]. *)
Definition py_str_int (i : Z) : string := NilZero.string_of_int (Z.to_int i).

(** ** Dictionaries *)

Definition dict (V : Type) : Type := list (string * V).

Fixpoint dict_get {V : Type} (k : string) (d : dict V) : option V :=
  match d with
  | [] => None
  | (k', v) :: d' => if String.eqb k k' then Some v else dict_get k d'
  end.

(** [d[k] = v]: an existing key keeps its place, a new key goes last. *)
Fixpoint dict_set {V : Type} (k : string) (v : V) (d : dict V) : dict V :=
  match d with
  | [] => [(k, v)]
  | (k', v') :: d' =>
      if String.eqb k k' then (k', v) :: d' else (k', v') :: dict_set k v d'
  end.

(** [d1 | d2] *)
Definition dict_union {V : Type} (d1 d2 : dict V) : dict V :=
  fold_left (fun d kv => dict_set (fst kv) (snd kv) d) d2 d1.

Definition dict_keys {V : Type} (d : dict V) : list string := map fst d.

(** ** Parsed documents and the selectors the program uses

    What [bs4] hands back: a forest of tags and text.  A tag's [class] is
    kept as the one string it has in the markup. *)

#[local] Set Warnings "-register-all".
Inductive node : Type :=
| Text (t : string)
| Tag (name : string) (attrs : dict string) (children : list node).

Definition soup : Type := list node.

(** [e.text]: the text nodes below the element, in document order. *)
Fixpoint get_text (n : node) : string :=
  match n with
  | Text t => t
  | Tag _ _ kids =>
      (fix go (l : list node) : string :=
         match l with
         | [] => EmptyString
         | k :: l' => (get_text k ++ go l')%string
         end) kids
  end.

Inductive attr_test : Type :=
| AttrEq (a v : string)        (* [a=v]  *)
| AttrPrefix (a v : string).   (* [a^=v] *)

(** A compound selector [name] or [name[test]]. *)
Record compound : Type := {
  sel_name : string;
  sel_attr : option attr_test
}.

(** Compounds joined by the descendant combinator, outermost first. *)
Definition selector : Type := list compound.

Definition attr_holds (t : attr_test) (attrs : dict string) : bool :=
  match t with
  | AttrEq a v =>
      match dict_get a attrs with
      | Some x => String.eqb x v
      | None => false
      end
  | AttrPrefix a v =>
      match dict_get a attrs with
      | Some x => prefix v x
      | None => false
      end
  end.

Definition matches (c : compound) (name : string) (attrs : dict string)
  : bool :=
  String.eqb name (sel_name c) &&
  match sel_attr c with
  | Some t => attr_holds t attrs
  | None => true
  end.

(** Elements below (and including) [n] that the selector selects, in
    document order.  [sel] is what remains to be matched given the
    ancestors passed so far. *)
Fixpoint select_node (n : node) (sel : selector) : list node :=
  match n with
  | Text _ => []
  | Tag name attrs kids =>
      let below (sel' : selector) : list node :=
        (fix go (l : list node) : list node :=
           match l with
           | [] => []
           | k :: l' => select_node k sel' ++ go l'
           end) kids in
      match sel with
      | [] => []
      | [c] => (if matches c name attrs then [n] else []) ++ below sel
      | c :: rest => below (if matches c name attrs then rest else sel)
      end
  end.

Definition select (sel : selector) (doc : soup) : list node :=
  flat_map (fun n => select_node n sel) doc.

Definition tag_sel (name : string) : compound :=
  {| sel_name := name; sel_attr := None |}.
Definition tag_attr_eq (name a v : string) : compound :=
  {| sel_name := name; sel_attr := Some (AttrEq a v) |}.
Definition tag_attr_prefix (name a v : string) : compound :=
  {| sel_name := name; sel_attr := Some (AttrPrefix a v) |}.

(** [tr[class^=ap-list-row] h3 a] *)
Definition SEL_DESIGNATORS : selector :=
  [tag_attr_prefix "tr" "class" "ap-list-row"; tag_sel "h3"; tag_sel "a"].
(** [tr[class=ap-list-pager] a] *)
Definition SEL_PAGER_A : selector :=
  [tag_attr_eq "tr" "class" "ap-list-pager"; tag_sel "a"].
(** [tr[class=ap-list-pager] span] *)
Definition SEL_PAGER_SPAN : selector :=
  [tag_attr_eq "tr" "class" "ap-list-pager"; tag_sel "span"].

(** ** Listing pages *)

Definition scrape_designators (doc : soup) : list string :=
  map (fun e => strip (get_text e)) (select SEL_DESIGNATORS doc).

(** A Python set of strings: no duplicates; its order plays no role in
    what the program computes from it. *)
Definition py_set (l : list string) : list string := nodup string_dec l.

Fixpoint ints_of (l : list string) : result (list Z) :=
  match l with
  | [] => Ok []
  | e :: l' =>
      (i <- py_int e ;;
       zs <- ints_of l' ;;
       Ok (i :: zs))%res
  end.

(** [max] of a collection: [ValueError] when it is empty. *)
Definition py_max (l : list Z) : result Z :=
  match l with
  | [] => Raise ValueError
  | x :: l' => Ok (fold_left Z.max l' x)
  end.

Definition ELLIPSIS : string := "...".

Definition pager_links (doc : soup) : list string :=
  map (fun e => strip (get_text e)) (select SEL_PAGER_A doc).

Definition pager_spans (doc : soup) : list string :=
  map (fun e => strip (get_text e)) (select SEL_PAGER_SPAN doc).

Definition max_page_no (doc : soup) : result Z :=
  (let ts := py_set (pager_links doc) in
   let ts := py_set (ts ++ py_set (pager_spans doc)) in
   last <- match rev (pager_links doc) with
           | x :: _ => Ok x
           | [] => Raise IndexError
           end ;;
   ns <- ints_of (filter (fun e => negb (String.eqb e ELLIPSIS)) ts) ;;
   n <- py_max (nodup Z.eq_dec ns) ;;
   Ok (if String.eqb last ELLIPSIS then (n + 1)%Z else n))%res.

(** ** The ASP.NET postback state *)

Record PageState : Type := {
  view_state : string;
  view_state_generator : string;
  event_validation : string
}.

Definition PageState_data (st : PageState) : dict string :=
  let res := [] in
  let res := dict_set "__VIEWSTATE" (view_state st) res in
  let res := dict_set "__VIEWSTATEGENERATOR" (view_state_generator st) res in
  let res := dict_set "__EVENTVALIDATION" (event_validation st) res in
  res.

(** [soup.find("input", attrs={"name": name})["value"]]: subscripting the
    [None] of a failed [find] is a [TypeError], a tag without the
    attribute a [KeyError]. *)
Definition input_value (doc : soup) (name : string) : result string :=
  match select [tag_attr_eq "input" "name" name] doc with
  | Tag _ attrs _ :: _ =>
      match dict_get "value" attrs with
      | Some v => Ok v
      | None => Raise KeyError
      end
  | _ => Raise TypeError
  end.

Definition PageState_extract (doc : soup) : result PageState :=
  (vs <- input_value doc "__VIEWSTATE" ;;
   vg <- input_value doc "__VIEWSTATEGENERATOR" ;;
   ev <- input_value doc "__EVENTVALIDATION" ;;
   Ok {| view_state := vs;
         view_state_generator := vg;
         event_validation := ev |})%res.

Record PageEvent : Type := {
  event_target : string;
  event_argument : string
}.

Definition PageEvent_page (i : Z) : PageEvent :=
  {| event_target := "ctl00$MainContent$wsBasicSearchGridView";
     event_argument := "Page$" ++ py_str_int i |}.

Definition PageEvent_data (evt : PageEvent) : dict string :=
  let res := [] in
  let res := dict_set "__EVENTTARGET" (event_target evt) res in
  let res := dict_set "__EVENTARGUMENT" (event_argument evt) res in
  res.

Definition URL : string :=
  "https://contentzone.eurocontrol.int/aircraftperformance/".

(** ** Detail pages *)

Inductive value : Type :=
| VStr (s : string)
| VFloat (q : Q)
| VInt (i : Z).

(** [soup.select(sel)[0].text] *)
Definition first_text (doc : soup) (sel : selector) : result string :=
  (e <- nth_result (select sel doc) 0 ;; Ok (get_text e))%res.

Definition span_id (id : string) : selector := [tag_attr_eq "span" "id" id].
Definition span_datagraph (g : string) : selector :=
  [tag_attr_eq "span" "datagraph" g].

Definition KEYS : list string :=
  [ "ICAO";
    "AircraftName";
    "Manufacturer";
    "WingSpan_m";
    "Lenght_m";
    "Height_m";
    "Cruise_kt";
    "CruiseCeiling_FL" ].

(** ** The world outside: transport, clock and files

    [requests] is a function of the request and of the state of whatever
    answers it.  The world keeps the exchanges made so far, the number of
    pauses taken, and the files. *)

Inductive request : Type :=
| GET (url : string)
| POST (url : string) (data : dict string).

Definition exchange : Type := (request * result string)%type.

(** A file is a pickled raw-page mapping or text. *)
Inductive file : Type :=
| Pickled (pages : dict string)
| TextFile (content : string).

Record args : Type := {
  output : string;
  rawfile : option string
}.

Definition CR : ascii := ascii_of_nat 13.
Definition LF : ascii := ascii_of_nat 10.
Definition DQUOTE : ascii := ascii_of_nat 34.
Definition CRLF : string := String CR (String LF EmptyString).

Section Program.

Context {Server : Type}.
Variable respond : request -> Server -> result string * Server.

Record world : Type := {
  server : Server;
  history : list exchange;
  sleeps : nat;
  files : dict file
}.

(** Computations that read and change the world and may raise; the world
    reached is kept when they raise. *)
Definition IO (A : Type) : Type := world -> result A * world.

Definition ret {A : Type} (a : A) : IO A := fun w => (Ok a, w).

Definition bind {A B : Type} (m : IO A) (f : A -> IO B) : IO B :=
  fun w =>
    match m w with
    | (Ok a, w') => f a w'
    | (Raise e, w') => (Raise e, w')
    | (OutOfFuel, w') => (OutOfFuel, w')
    end.

Definition lift {A : Type} (r : result A) : IO A := fun w => (r, w).

Definition send (q : request) : IO string :=
  fun w =>
    let '(r, srv) := respond q (server w) in
    (r, {| server := srv;
           history := history w ++ [(q, r)];
           sleeps := sleeps w;
           files := files w |}).

Definition rq_get (url : string) : IO string := send (GET url).
Definition rq_post (url : string) (data : dict string) : IO string :=
  send (POST url data).

(** [time.sleep(random.randint(3, 5))]: one more pause; how long it lasts
    is not modelled. *)
Definition wait : IO unit :=
  fun w =>
    (Ok tt, {| server := server w;
               history := history w;
               sleeps := S (sleeps w);
               files := files w |}).

Definition path_exists (p : string) : IO bool :=
  fun w => (Ok (match dict_get p (files w) with
                | Some _ => true
                | None => false
                end), w).

Definition pickle_load (p : string) : IO (dict string) :=
  fun w =>
    (match dict_get p (files w) with
     | Some (Pickled pages) => Ok pages
     | _ => Raise UnpicklingError
     end, w).

(** [open(p, mode)] and what is written through the handle: the file at
    [p] is replaced by [f].  The exceptions [open] and the writes can raise
    (a missing directory, a full disk) are left out of the model, where a
    write always succeeds. *)
Definition write_file (p : string) (f : file) : IO unit :=
  fun w =>
    (Ok tt, {| server := server w;
               history := history w;
               sleeps := sleeps w;
               files := dict_set p f (files w) |}).

Definition pickle_dump (p : string) (pages : dict string) : IO unit :=
  write_file p (Pickled pages).

End Program.

Arguments world : clear implicits.
Arguments IO : clear implicits.

Declare Scope io_scope.
Delimit Scope io_scope with io.
Notation "x <- m ;; k" := (bind m (fun x => k))
  (at level 61, m at next level, right associativity) : io_scope.
Notation "' p <- m ;; k" := (bind m (fun x => match x with p => k end))
  (at level 61, p pattern, m at next level, right associativity) : io_scope.
Notation "m ;; k" := (bind m (fun _ => k))
  (at level 61, right associativity) : io_scope.

(** ** The scraper *)

Section Scraper.

Context {Server : Type}.
Variable respond : request -> Server -> result string * Server.
(** [bs.BeautifulSoup(raw, "html.parser")] *)
Variable html_parser : string -> soup.
(** [str(x)] for a float [x] *)
Variable float_repr : Q -> string.

Definition retrieve_front : IO Server (soup * PageState) :=
  (raw <- rq_get respond URL ;;
   let doc := html_parser raw in
   st <- lift (PageState_extract doc) ;;
   ret (doc, st))%io.

Definition retrieve_page (evt : PageEvent) (state : PageState)
  : IO Server (soup * PageState) :=
  (raw <- rq_post respond URL
            (dict_union (PageEvent_data evt) (PageState_data state)) ;;
   let doc := html_parser raw in
   st <- lift (PageState_extract doc) ;;
   ret (doc, st))%io.

Definition retrieve_icao (icao : string) : IO Server string :=
  rq_get respond (URL ++ "details.aspx?ICAO=" ++ icao).

Definition scrape_icao (raw : string) : result (dict value) :=
  (let doc := html_parser raw in
   let result := [] in
   t <- first_text doc (span_id "MainContent_wsICAOLabel") ;;
   let result := dict_set "ICAO" (VStr t) result in
   t <- first_text doc (span_id "MainContent_wsAcftNameLabel") ;;
   let result := dict_set "AircraftName" (VStr t) result in
   t <- first_text doc (span_id "MainContent_wsManufacturerLabel") ;;
   let result := dict_set "Manufacturer" (VStr t) result in
   t <- first_text doc (span_id "MainContent_wsLabelWingSpan") ;;
   x <- strip_units t ;;
   let result := dict_set "WingSpan_m" (VFloat x) result in
   t <- first_text doc (span_id "MainContent_wsLabelLength") ;;
   x <- strip_units t ;;
   let result := dict_set "Lenght_m" (VFloat x) result in
   t <- first_text doc (span_id "MainContent_wsLabelHeight") ;;
   x <- strip_units t ;;
   let result := dict_set "Height_m" (VFloat x) result in
   t <- first_text doc (span_datagraph "cruiseTAS") ;;
   x <- strip_units t ;;
   let result := dict_set "Cruise_kt" (VFloat x) result in
   t <- first_text doc (span_datagraph "cruiseCeiling") ;;
   i <- py_int t ;;
   let result := dict_set "CruiseCeiling_FL" (VInt i) result in
   Ok result)%res.

(** The [while n < max_page] loop of [retrieve_designators]; [fuel] bounds
    the number of turns. *)
Fixpoint walk_pages (fuel : nat) (n max_page : Z) (state : PageState)
         (designators : list string) : IO Server (list string) :=
  if (n <? max_page)%Z then
    match fuel with
    | O => lift OutOfFuel
    | S fuel' =>
        (let n := (n + 1)%Z in
         '(page, state) <- retrieve_page (PageEvent_page n) state ;;
         m <- lift (max_page_no page) ;;
         let max_page := Z.max max_page m in
         let designators := designators ++ scrape_designators page in
         wait ;;
         walk_pages fuel' n max_page state designators)%io
    end
  else ret designators.

Definition retrieve_designators (fuel : nat) : IO Server (list string) :=
  (let designators := [] in
   let n := 1%Z in
   '(page, state) <- retrieve_front ;;
   max_page <- lift (max_page_no page) ;;
   let designators := designators ++ scrape_designators page in
   wait ;;
   walk_pages fuel n max_page state designators)%io.

(** The [for d in ds] loop of [retrieve_details]. *)
Fixpoint details_loop (ds : list string) (details : list (dict value))
         (pages : dict string)
  : IO Server (list (dict value) * dict string) :=
  match ds with
  | [] => ret (details, pages)
  | d :: ds' =>
      (raw <- retrieve_icao d ;;
       let pages := dict_set d raw pages in
       icao <- lift (match dict_get d pages with
                     | Some page => scrape_icao page
                     | None => Raise KeyError
                     end) ;;
       let details := details ++ [icao] in
       wait ;;
       details_loop ds' details pages)%io
  end.

Definition retrieve_details (ds : list string)
  : IO Server (list (dict value) * dict string) :=
  details_loop ds [] [].

(** The [for d, page in ds.items()] loop of [scrape_details]. *)
Fixpoint scrape_loop (items : list (string * string))
         (details : list (dict value)) : result (list (dict value)) :=
  match items with
  | [] => Ok details
  | (d, page) :: items' =>
      (icao <- scrape_icao page ;;
       scrape_loop items' (details ++ [icao]))%res
  end.

Definition scrape_details (ds : dict string) : result (list (dict value)) :=
  scrape_loop ds [].

(** *** [csv.DictWriter(f, KEYS)] *)

Definition csv_cell (v : value) : string :=
  match v with
  | VStr s => s
  | VFloat q => float_repr q
  | VInt i => py_str_int i
  end.

Definition needs_quotes (c : ascii) : bool :=
  Ascii.eqb c "," || Ascii.eqb c DQUOTE || Ascii.eqb c CR || Ascii.eqb c LF.

Fixpoint double_quotes (l : list ascii) : list ascii :=
  match l with
  | [] => []
  | c :: l' =>
      if Ascii.eqb c DQUOTE then c :: c :: double_quotes l'
      else c :: double_quotes l'
  end.

(** Minimal quoting, the default of the [csv] module. *)
Definition csv_quote (s : string) : string :=
  if existsb needs_quotes (chars s) then
    text_of (DQUOTE :: double_quotes (chars s) ++ [DQUOTE])
  else s.

Definition csv_line (cells : list string) : string :=
  (String.concat "," (map csv_quote cells) ++ CRLF)%string.

(** [DictWriter._dict_to_list]: a key outside the field names is a
    [ValueError]; a field name the row lacks gives the empty cell. *)
Definition dict_to_list (fieldnames : list string) (row : dict value)
  : result (list string) :=
  if forallb (fun k => existsb (String.eqb k) fieldnames) (dict_keys row)
  then Ok (map (fun k => match dict_get k row with
                         | Some v => csv_cell v
                         | None => EmptyString
                         end) fieldnames)
  else Raise ValueError.

Definition writeheader (fieldnames : list string) (f : string) : string :=
  (f ++ csv_line fieldnames)%string.

(** [writerows]: rows are written one after the other; a row that raises
    leaves the rows before it written. *)
Fixpoint writerows (fieldnames : list string) (rows : list (dict value))
         (f : string) : result unit * string :=
  match rows with
  | [] => (Ok tt, f)
  | row :: rows' =>
      match dict_to_list fieldnames row with
      | Ok cells => writerows fieldnames rows' (f ++ csv_line cells)%string
      | Raise e => (Raise e, f)
      | OutOfFuel => (OutOfFuel, f)
      end
  end.

Definition write_csv (path : string) (details : list (dict value))
  : IO Server unit :=
  let f := EmptyString in
  let f := writeheader KEYS f in
  let '(r, f) := writerows KEYS details f in
  (write_file path (TextFile f) ;; lift r)%io.

(** The live branch of [main]: walk the listing, then fetch the details. *)
Definition fetch_all (fuel : nat)
  : IO Server (list (dict value) * dict string) :=
  (designators <- retrieve_designators fuel ;;
   retrieve_details designators)%io.

Definition main (fuel : nat) (a : args) : IO Server unit :=
  ('(details, pages) <-
     match rawfile a with
     | Some p =>
         cached <- path_exists p ;;
         if cached : bool then
           pages <- pickle_load p ;;
           details <- lift (scrape_details pages) ;;
           ret (details, pages)
         else fetch_all fuel
     | None => fetch_all fuel
     end ;;
   match rawfile a with
   | Some p =>
       present <- path_exists p ;;
       if present : bool then ret tt else pickle_dump p pages
   | None => ret tt
   end ;;
   write_csv (output a) details)%io.

End Scraper.

(** ** Stand-ins for the outside world, used to run the program

    A scripted transport answers the k-th request with the k-th text of
    its script, whatever the request; a table parser maps the raw texts of
    a fixture to their documents. *)

Definition script_respond (q : request) (script : list string)
  : result string * list string :=
  match script with
  | raw :: script' => (Ok raw, script')
  | [] => (Raise TransportError, [])
  end.

Definition table_parser (table : dict soup) (raw : string) : soup :=
  match dict_get raw table with
  | Some doc => doc
  | None => []
  end.

(** The address of the detail page of a designator. *)
Definition details_url (icao : string) : string :=
  (URL ++ "details.aspx?ICAO=" ++ icao)%string.

(** A transport that serves the detail pages of a raw-page mapping. *)
Definition mapping_respond (pages : dict string) (q : request) (srv : unit)
  : result string * unit :=
  match q with
  | GET url =>
      match find (fun kv => String.eqb url (details_url (fst kv))) pages with
      | Some kv => (Ok (snd kv), tt)
      | None => (Raise TransportError, tt)
      end
  | POST _ _ => (Raise TransportError, tt)
  end.

Definition start_world {Server : Type} (srv : Server) (fs : dict file)
  : world Server :=
  {| server := srv; history := []; sleeps := 0; files := fs |}.

(** Fixture documents. *)

Definition hidden (name v : string) : node :=
  Tag "input" [("type", "hidden"); ("name", name); ("value", v)] [].

Definition link (label : string) : node :=
  Tag "a" [("href", "#")] [Text label].

Definition current (label : string) : node := Tag "span" [] [Text label].

Definition row (cls designator : string) : node :=
  Tag "tr" [("class", cls)]
    [Tag "td" [] [Tag "h3" [] [Tag "a" [("href", "#")] [Text designator]]]].

Definition pager_row (cells : list node) : node :=
  Tag "tr" [("class", "ap-list-pager")] [Tag "td" [] cells].

Definition listing (token : string) (designators : list string)
           (cells : list node) : soup :=
  [Tag "form" []
     ([hidden "__VIEWSTATE" ("vs-" ++ token);
       hidden "__VIEWSTATEGENERATOR" ("vg-" ++ token);
       hidden "__EVENTVALIDATION" ("ev-" ++ token);
       Tag "table" []
         (map (row "ap-list-row") designators ++ [pager_row cells])])].

Definition label_span (id text : string) : node :=
  Tag "span" [("id", id)] [Text text].

Definition graph_span (g text : string) : node :=
  Tag "span" [("datagraph", g)] [Text text].

Definition detail_page (icao name maker span len height tas ceiling : string)
  : soup :=
  [Tag "div" []
     [label_span "MainContent_wsICAOLabel" icao;
      label_span "MainContent_wsAcftNameLabel" name;
      label_span "MainContent_wsManufacturerLabel" maker;
      label_span "MainContent_wsLabelWingSpan" span;
      label_span "MainContent_wsLabelLength" len;
      label_span "MainContent_wsLabelHeight" height;
      graph_span "cruiseTAS" tas;
      graph_span "cruiseCeiling" ceiling]].

(** A small site: three listing pages and one detail page.  The first
    page shows pages 1 and 2, the second adds an ellipsis link after its
    numbers, the third is the last. *)
Definition demo_site : dict soup :=
  [ ("page-1", listing "1" ["A001"; "B002"] [current "1"; link "2"]);
    ("page-2", listing "2" ["B002"; "C003"]
                 [link "1"; current "2"; link "..."]);
    ("page-3", listing "3" ["D004"] [link "..."; link "2"; current "3"]);
    ("A001.html", detail_page "A001" "Test Jet" "Acme"
                    "34.1 m" "30.0 m" "10.0 m" "450 kt" "410") ].

Definition demo_state (token : string) : PageState :=
  {| view_state := "vs-" ++ token;
     view_state_generator := "vg-" ++ token;
     event_validation := "ev-" ++ token |}.

(** The record of the demo site's detail page and the CSV of that one
    record, floats printed with one decimal place. *)
Definition demo_record : dict value :=
  [ ("ICAO", VStr "A001");
    ("AircraftName", VStr "Test Jet");
    ("Manufacturer", VStr "Acme");
    ("WingSpan_m", VFloat (341 # 10));
    ("Lenght_m", VFloat (30 # 1));
    ("Height_m", VFloat (10 # 1));
    ("Cruise_kt", VFloat (450 # 1));
    ("CruiseCeiling_FL", VInt 410) ].

Definition demo_csv : string :=
  ("ICAO,AircraftName,Manufacturer,WingSpan_m,Lenght_m,Height_m,Cruise_kt,CruiseCeiling_FL"
   ++ CRLF ++
   "A001,Test Jet,Acme,34.1,30.0,10.0,450.0,410" ++ CRLF)%string.



(** ** Notions used to state the properties *)

(** Every pager label of a listing page: links first, then spans. *)
Definition pager_labels (doc : soup) : list string :=
  pager_links doc ++ pager_spans doc.

Definition no_digit (s : string) : Prop :=
  forall c, In c (chars s) -> is_digit c = false.

(** The page bound in the words of the specification: the largest of the
    strictly numeric pager labels, one more when the last label is the
    ellipsis.  Not taken from the code; [max_page_no] is compared with
    it. *)
Definition strictly_numeric (t : string) : bool :=
  match chars t with
  | [] => false
  | l => forallb is_digit l
  end.

Definition spec_max_page (labels : list string) : Z :=
  let n := fold_left Z.max
             (map (fun t => digits_val (chars t))
                  (filter strictly_numeric labels)) 0%Z in
  if String.eqb (last labels EmptyString) ELLIPSIS then (n + 1)%Z else n.

(** The eight elements [scrape_icao] expects on a detail page, in the
    order it reads them. *)
Definition DETAIL_SELECTORS : list selector :=
  [ span_id "MainContent_wsICAOLabel";
    span_id "MainContent_wsAcftNameLabel";
    span_id "MainContent_wsManufacturerLabel";
    span_id "MainContent_wsLabelWingSpan";
    span_id "MainContent_wsLabelLength";
    span_id "MainContent_wsLabelHeight";
    span_datagraph "cruiseTAS";
    span_datagraph "cruiseCeiling" ].

Definition present (doc : soup) (sel : selector) : bool :=
  match select sel doc with
  | [] => false
  | _ :: _ => true
  end.

Definition elements_present (doc : soup) : bool :=
  forallb (present doc) DETAIL_SELECTORS.

(** The text of the first element a selector selects. *)
Definition label_text (doc : soup) (sel : selector) : string :=
  match select sel doc with
  | e :: _ => get_text e
  | [] => EmptyString
  end.

(** A result is settled when it is a value or an exception. *)
Definition settled {A : Type} (r : result A) : Prop := r <> OutOfFuel.

(** The postback that asks for page [n] with the state [st]. *)
Definition page_request (n : Z) (st : PageState) : request :=
  POST URL (dict_union (PageEvent_data (PageEvent_page n))
                       (PageState_data st)).

(** [follows parser n prev exs]: in the exchanges [exs] made after the
    response [prev] to the request for page [n], every request is the
    postback for the next page number and carries the state extracted
    from the response just before it. *)
Fixpoint follows (html_parser : string -> soup) (n : Z)
         (prev : result string) (exs : list exchange) : Prop :=
  match exs with
  | [] => True
  | (q, resp) :: exs' =>
      (exists raw st,
          prev = Ok raw /\
          PageState_extract (html_parser raw) = Ok st /\
          q = page_request (n + 1) st) /\
      follows html_parser (n + 1) resp exs'
  end.

(** The exchanges of a walk: the front page by [GET], then postbacks that
    follow one another. *)
Definition walk_exchanges (html_parser : string -> soup)
           (exs : list exchange) : Prop :=
  match exs with
  | [] => False
  | (q, resp) :: exs' => q = GET URL /\ follows html_parser 1 resp exs'
  end.





(** The transport supplies the raw pages of a mapping: asked for the
    detail page of a designator of the mapping, it answers with the raw
    text the mapping holds for it, whatever its state. *)
Definition supplies {Server : Type}
           (respond : request -> Server -> result string * Server)
           (pages : dict string) : Prop :=
  forall d raw srv,
    In (d, raw) pages -> fst (respond (GET (details_url d)) srv) = Ok raw.

(** The CSV text expected for a sequence of records: the line of the
    field names, then one line per record, in order, whose cells are the
    record's values under the field names, in the order of [KEYS]. *)
Definition cell_of (float_repr : Q -> string) (r : dict value) (k : string)
  : string :=
  match dict_get k r with
  | Some v => csv_cell float_repr v
  | None => EmptyString
  end.

Definition csv_text (float_repr : Q -> string) (details : list (dict value))
  : string :=
  (csv_line KEYS ++
   fold_right append EmptyString
     (map (fun r => csv_line (map (cell_of float_repr r) KEYS)) details))%string.

(** A stand-in for [str] on floats that prints one decimal place. *)
Definition one_decimal (q : Q) : string :=
  let tenths := (Qnum q * 10 / Z.pos (Qden q))%Z in
  (py_str_int (tenths / 10) ++ "." ++ py_str_int (tenths mod 10))%string.

(** What a successful run of the matcher has done, as a relation:
    [matched r s s' g g'] says that [r] has consumed the part of [s]
    before [s'] and turned the groups [g] into [g']. *)
Inductive matched : regex -> list ascii -> list ascii -> groups -> groups
                    -> Prop :=
| matched_cls p c s g :
    p c = true -> matched (Cls p) (c :: s) s g g
| matched_cat r1 r2 s s1 s2 g g1 g2 :
    matched r1 s s1 g g1 -> matched r2 s1 s2 g1 g2 ->
    matched (Cat r1 r2) s s2 g g2
| matched_alt_l r1 r2 s s' g g' :
    matched r1 s s' g g' -> matched (Alt r1 r2) s s' g g'
| matched_alt_r r1 r2 s s' g g' :
    matched r2 s s' g g' -> matched (Alt r1 r2) s s' g g'
| matched_opt r s s' g g' :
    matched r s s' g g' -> matched (Opt r) s s' g g'
| matched_opt_skip r s g :
    matched (Opt r) s s g g
| matched_star p ds s g :
    Forall (fun c => p c = true) ds -> matched (Star p) (ds ++ s) s g g
| matched_plus p d ds s g :
    p d = true -> Forall (fun c => p c = true) ds ->
    matched (Plus p) (d :: ds ++ s) s g g
| matched_group i r s s' g g' :
    matched r s s' g g' ->
    matched (Group i r) s s' g ((i, consumed s s') :: g').

(** The texts group 1 of [NUMBER_PATTERN] can hold: digits with an
    optional point and further digits, or a point and digits. *)
Inductive mantissa : list ascii -> Prop :=
| mantissa_int d ds :
    is_digit d = true -> Forall (fun c => is_digit c = true) ds ->
    mantissa (d :: ds)
| mantissa_frac d ds fs :
    is_digit d = true -> Forall (fun c => is_digit c = true) ds ->
    Forall (fun c => is_digit c = true) fs ->
    mantissa (d :: ds ++ "."%char :: fs)
| mantissa_point f fs :
    is_digit f = true -> Forall (fun c => is_digit c = true) fs ->
    mantissa ("."%char :: f :: fs).

(** The names of the three hidden inputs [PageState_extract] reads. *)
Definition STATE_FIELDS : list string :=
  ["__VIEWSTATE"; "__VIEWSTATEGENERATOR"; "__EVENTVALIDATION"].

(** Requests made and pauses taken from one world to a later one. *)
Definition requests_made {Server : Type} (w w' : world Server) : Z :=
  Z.of_nat (List.length (history w')) - Z.of_nat (List.length (history w)).

Definition pauses_taken {Server : Type} (w w' : world Server) : Z :=
  Z.of_nat (sleeps w') - Z.of_nat (sleeps w).

(** An exchange is answered when the transport returned a page. *)
Definition answered (ex : exchange) : Prop := exists raw, snd ex = Ok raw.

(** The last of a run of exchanges went unanswered. *)
Definition last_unanswered (exs : list exchange) : Prop :=
  match rev exs with
  | ex :: _ => ~ answered ex
  | [] => False
  end.

(** The requests of [exs] that no pause has followed yet, when [a] were
    open before them and the world went from [w] to [w']. *)
Definition open_requests {Server : Type} (a : Z) (exs : list exchange)
           (w w' : world Server) : Z :=
  (Z.of_nat (List.length exs) - pauses_taken w w' + a)%Z.

(** [paced a b m]: started when [a] requests have gone without a pause
    after them, [m] only adds exchanges to the history and keeps the number
    of open requests between 0 and 1.  Either every request was answered,
    and the number is [b] if [m] returns a value; or all requests but the
    last were answered, the last was not, [m] returns no value and the
    unanswered request is the open one. *)
Definition paced {Server A : Type} (a b : Z) (m : IO Server A) : Prop :=
  forall w, exists exs,
    history (snd (m w)) = history w ++ exs /\
    (0 <= open_requests a exs w (snd (m w)) <= 1)%Z /\
    ((Forall answered exs /\
      forall x, fst (m w) = Ok x -> open_requests a exs w (snd (m w)) = b) \/
     (exists exs0 ex,
         exs = exs0 ++ [ex] /\ Forall answered exs0 /\ ~ answered ex /\
         open_requests a exs w (snd (m w)) = 1%Z /\
         forall x, fst (m w) <> Ok x)).

(** The exchanges of a fetch of detail pages that went well: one [GET] per
    designator, in order, each answered by the raw page next to it. *)
Definition fetched (ds raws : list string) : list exchange :=
  map (fun p : string * string => (GET (details_url (fst p)), Ok (snd p)))
      (combine ds raws).

(** A raw detail page that scrapes to a record. *)
Definition scrapes (html_parser : string -> soup) (raw : string) : Prop :=
  exists record, scrape_icao html_parser raw = Ok record.

(** The response [resp] to the request for a detail page is where a fetch
    ending in [r] has stopped: the transport raised, or the page it
    returned does not scrape, and [r] is that exception. *)
Definition stopped_by {A : Type} (html_parser : string -> soup)
           (resp : result string) (r : result A) : Prop :=
  (exists e, r = Raise e /\
             (resp = Raise e \/
              exists raw, resp = Ok raw /\
                          scrape_icao html_parser raw = Raise e)) \/
  (r = OutOfFuel /\ resp = OutOfFuel).

(** The cache file a run starts with: the file at the configured path, when
    a path is configured and the file exists. *)
Definition cache_file {Server : Type} (a : args) (w : world Server)
  : option file :=
  match rawfile a with
  | Some p => dict_get p (files w)
  | None => None
  end.

(** The first stage of a run raises [e]: with a cache file, the file is no
    pickle or one of its pages does not scrape; without one, the fetch
    from the network raises. *)
Definition first_stage_raises {Server : Type}
           (respond : request -> Server -> result string * Server)
           (html_parser : string -> soup) (fuel : nat) (a : args)
           (w : world Server) (e : exn) : Prop :=
  match cache_file a w with
  | Some (Pickled pages) => scrape_details html_parser pages = Raise e
  | Some (TextFile _) => e = UnpicklingError
  | None => fst (fetch_all respond html_parser fuel w) = Raise e
  end.

(** [keeps_files m]: [m] leaves the files as they are, however it ends. *)
Definition keeps_files {Server A : Type} (m : IO Server A) : Prop :=
  forall w, files (snd (m w)) = files w.

(* ================================================================== *)
(** * Properties *)

(** ** The unit-stripping parser *)

Lemma search_none_findall (r : regex) (n : nat) (s : list ascii) :
  search_from r s = None -> findall_from r n 0 s = [].
Proof.
  induction s as [|c s IH]; simpl; intros H.
  - destruct (match_here r []) as [[rest g]|]; [discriminate | reflexivity].
  - destruct (match_here r (c :: s)) as [[rest g]|]; [discriminate | auto].
Qed.

Lemma findall_nil_search (r : regex) (n : nat) (s : list ascii) :
  findall_from r n 0 s = [] -> search_from r s = None.
Proof.
  induction s as [|c s IH]; simpl; intros H.
  - destruct (match_here r []) as [[rest g]|]; [discriminate | reflexivity].
  - destruct (match_here r (c :: s)) as [[rest g]|]; [discriminate | auto].
Qed.

(** *** A pattern that needs a digit matches nowhere in digit-free text *)

Definition digit_free (l : list ascii) : Prop :=
  Forall (fun c => is_digit c = false) l.

(** [needs_digit r]: every match of [r] consumes at least one digit. *)
Fixpoint needs_digit (r : regex) : Prop :=
  match r with
  | Cls p | Plus p => forall c, p c = true -> is_digit c = true
  | Cat r1 r2 => needs_digit r1 \/ needs_digit r2
  | Alt r1 r2 => needs_digit r1 /\ needs_digit r2
  | Opt _ | Star _ => False
  | Group _ r1 => needs_digit r1
  end.

Lemma star_digit_free {A : Type} (p : ascii -> bool) (s : list ascii)
      (k : list ascii -> option A) :
  digit_free s ->
  (forall s', digit_free s' -> k s' = None) ->
  star p s k = None.
Proof.
  intros Hs Hk. induction Hs as [|c s Hc Hs IH]; simpl.
  - apply Hk. constructor.
  - rewrite IH. destruct (p c); apply Hk; constructor; assumption.
Qed.

Lemma rmatch_digit_free {A : Type} (r : regex) :
  forall (s : list ascii) (g : groups)
         (k : list ascii -> groups -> option A),
    digit_free s ->
    (forall s' g', digit_free s' -> k s' g' = None) ->
    rmatch r s g k = None.
Proof.
  induction r as [p|r1 IH1 r2 IH2|r1 IH1 r2 IH2|r1 IH1|p|p|i r1 IH1];
    intros s g k Hs Hk; simpl.
  - destruct Hs as [|c s Hc Hs]; [reflexivity|].
    destruct (p c); [apply Hk; assumption | reflexivity].
  - apply IH1; [assumption|]. intros s' g' Hs'. apply IH2; assumption.
  - rewrite IH1 by assumption. apply IH2; assumption.
  - rewrite IH1 by assumption. apply Hk; assumption.
  - apply star_digit_free; [assumption|]. intros s' Hs'. apply Hk; assumption.
  - destruct Hs as [|c s Hc Hs]; [reflexivity|].
    destruct (p c); [|reflexivity].
    apply star_digit_free; [assumption|]. intros s' Hs'. apply Hk; assumption.
  - apply IH1; [assumption|]. intros s' g' Hs'. apply Hk; assumption.
Qed.

Lemma rmatch_needs_digit {A : Type} (r : regex) :
  needs_digit r ->
  forall (s : list ascii) (g : groups)
         (k : list ascii -> groups -> option A),
    digit_free s -> rmatch r s g k = None.
Proof.
  induction r as [p|r1 IH1 r2 IH2|r1 IH1 r2 IH2|r1 IH1|p|p|i r1 IH1];
    simpl; intros Hr s g k Hs; try contradiction.
  - destruct Hs as [|c s Hc Hs]; [reflexivity|].
    destruct (p c) eqn:Hp; [|reflexivity].
    apply Hr in Hp. congruence.
  - destruct Hr as [Hr|Hr].
    + apply IH1; assumption.
    + apply rmatch_digit_free; [assumption|].
      intros s' g' Hs'. apply IH2; assumption.
  - destruct Hr as [Hr1 Hr2]. rewrite IH1 by assumption. apply IH2; assumption.
  - destruct Hs as [|c s Hc Hs]; [reflexivity|].
    destruct (p c) eqn:Hp; [|reflexivity].
    apply Hr in Hp. congruence.
  - apply IH1; assumption.
Qed.

Lemma NUMBER_PATTERN_needs_digit : needs_digit NUMBER_PATTERN.
Proof.
  simpl. right. left. split.
  - left. intros c H. exact H.
  - right. intros c H. exact H.
Qed.

Lemma search_digit_free (r : regex) (s : list ascii) :
  needs_digit r -> digit_free s -> search_from r s = None.
Proof.
  intros Hr Hs. induction Hs as [|c s Hc Hs IH]; simpl.
  - unfold match_here. rewrite rmatch_needs_digit; auto. constructor.
  - unfold match_here. rewrite rmatch_needs_digit; auto.
    constructor; assumption.
Qed.

(** *** A digit is always the start of a match *)

Definition total_k {A : Type} (k : list ascii -> groups -> option A) : Prop :=
  forall s g, k s g <> None.

Lemma star_total {A : Type} (p : ascii -> bool) (s : list ascii)
      (k : list ascii -> option A) :
  (forall s', k s' <> None) -> star p s k <> None.
Proof.
  intros Hk. induction s as [|c s IH]; simpl; [apply Hk|].
  destruct (p c); [|apply Hk].
  destruct (star p s k); [discriminate | contradiction].
Qed.

Lemma opt_total {A : Type} (r : regex) (s : list ascii) (g : groups)
      (k : list ascii -> groups -> option A) :
  total_k k -> rmatch (Opt r) s g k <> None.
Proof.
  intros Hk. simpl. destruct (rmatch r s g k); [discriminate | apply Hk].
Qed.

Lemma match_here_digit (c : ascii) (s : list ascii) :
  is_digit c = true -> match_here NUMBER_PATTERN (c :: s) <> None.
Proof.
  intros Hc. unfold match_here, NUMBER_PATTERN.
  set (K := fun (s' : list ascii) (g : groups) => Some (s', g)).
  assert (HK : total_k K) by (intros s' g'; discriminate).
  cbn [rmatch].
  match goal with
  | |- match ?first with Some x => Some x | None => ?second end <> None =>
      destruct first; [discriminate|]
  end.
  rewrite Hc.
  match goal with
  | |- match ?first with Some x => Some x | None => ?second end <> None =>
      assert (Hfirst : first <> None);
      [| destruct first; [discriminate | contradiction]]
  end.
  apply star_total. intros s'.
  match goal with
  | |- match ?first with Some x => Some x | None => ?second end <> None =>
      destruct first; [discriminate|]
  end.
  match goal with
  | |- match ?first with Some x => Some x | None => ?second end <> None =>
      destruct first; discriminate
  end.
Qed.

Lemma search_finds_digit (s : list ascii) :
  ~ digit_free s -> search_from NUMBER_PATTERN s <> None.
Proof.
  induction s as [|c s IH]; intros Hs.
  - exfalso. apply Hs. constructor.
  - simpl. destruct (match_here NUMBER_PATTERN (c :: s)) as [[rest g]|] eqn:E;
      [discriminate|].
    apply IH. intros Hfree. destruct (is_digit c) eqn:Hc.
    + apply (match_here_digit c s Hc). exact E.
    + apply Hs. constructor; assumption.
Qed.

(** Text holds a number in the sense of [NUMBER_PATTERN] exactly when it
    holds a digit. *)
Lemma no_number_iff_no_digit (s : string) :
  first_match NUMBER_PATTERN s = None <-> no_digit s.
Proof.
  unfold first_match, no_digit. split.
  - intros H c Hin. destruct (is_digit c) eqn:Hc; [|reflexivity].
    exfalso. destruct (search_from NUMBER_PATTERN (chars s)) eqn:E;
      [discriminate|].
    revert E. apply search_finds_digit. intros Hfree.
    unfold digit_free in Hfree. rewrite Forall_forall in Hfree.
    specialize (Hfree c Hin). congruence.
  - intros H. rewrite search_digit_free.
    + reflexivity.
    + exact NUMBER_PATTERN_needs_digit.
    + unfold digit_free. rewrite Forall_forall. exact H.
Qed.

(** *** What a match is made of *)

Lemma star_inv {A : Type} (p : ascii -> bool) (s : list ascii)
      (k : list ascii -> option A) (x : A) :
  star p s k = Some x ->
  exists ds s',
    s = ds ++ s' /\ Forall (fun c => p c = true) ds /\ k s' = Some x.
Proof.
  induction s as [|c s IH]; simpl; intros H.
  - exists [], []. auto.
  - destruct (p c) eqn:Hp.
    + destruct (star p s k) as [y|] eqn:E.
      * injection H as ->. destruct (IH eq_refl) as [ds [s' [-> [Hds Hk]]]].
        exists (c :: ds), s'. auto.
      * exists [], (c :: s). auto.
    + exists [], (c :: s). auto.
Qed.

Lemma rmatch_matched {A : Type} (r : regex) :
  forall (s : list ascii) (g : groups)
         (k : list ascii -> groups -> option A) (x : A),
    rmatch r s g k = Some x ->
    exists s' g', matched r s s' g g' /\ k s' g' = Some x.
Proof.
  induction r as [p|r1 IH1 r2 IH2|r1 IH1 r2 IH2|r1 IH1|p|p|i r1 IH1];
    intros s g k x H; simpl in H.
  - destruct s as [|c s]; [discriminate|].
    destruct (p c) eqn:Hp; [|discriminate].
    exists s, g. split; [constructor; exact Hp | exact H].
  - apply IH1 in H. destruct H as [s1 [g1 [H1 H]]].
    apply IH2 in H. destruct H as [s2 [g2 [H2 H]]].
    exists s2, g2. split; [econstructor; eassumption | exact H].
  - destruct (rmatch r1 s g k) as [y|] eqn:E.
    + injection H as ->. apply IH1 in E. destruct E as [s' [g' [H1 H]]].
      exists s', g'. split; [apply matched_alt_l; exact H1 | exact H].
    + apply IH2 in H. destruct H as [s' [g' [H2 H]]].
      exists s', g'. split; [apply matched_alt_r; exact H2 | exact H].
  - destruct (rmatch r1 s g k) as [y|] eqn:E.
    + injection H as ->. apply IH1 in E. destruct E as [s' [g' [H1 H]]].
      exists s', g'. split; [apply matched_opt; exact H1 | exact H].
    + exists s, g. split; [apply matched_opt_skip | exact H].
  - apply star_inv in H. destruct H as [ds [s' [-> [Hds H]]]].
    exists s', g. split; [constructor; exact Hds | exact H].
  - destruct s as [|c s]; [discriminate|].
    destruct (p c) eqn:Hp; [|discriminate].
    apply star_inv in H. destruct H as [ds [s' [-> [Hds H]]]].
    exists s', g. split; [constructor; assumption | exact H].
  - apply IH1 in H. destruct H as [s' [g' [H1 H]]].
    exists s', ((i, consumed s s') :: g').
    split; [constructor; exact H1 | exact H].
Qed.

Lemma consumed_app (l s : list ascii) : consumed (l ++ s) s = l.
Proof.
  unfold consumed. rewrite length_app.
  replace (List.length l + List.length s - List.length s)%nat
    with (List.length l) by lia.
  rewrite firstn_app, Nat.sub_diag, firstn_all. simpl.
  apply app_nil_r.
Qed.

Ltac invert_matched :=
  repeat match goal with
         | H : matched (Cls _) _ _ _ _ |- _ => inversion H; subst; clear H
         | H : matched (Cat _ _) _ _ _ _ |- _ => inversion H; subst; clear H
         | H : matched (Alt _ _) _ _ _ _ |- _ => inversion H; subst; clear H
         | H : matched (Opt _) _ _ _ _ |- _ => inversion H; subst; clear H
         | H : matched (Star _) _ _ _ _ |- _ => inversion H; subst; clear H
         | H : matched (Plus _) _ _ _ _ |- _ => inversion H; subst; clear H
         | H : matched (Group _ _) _ _ _ _ |- _ => inversion H; subst; clear H
         end.

Lemma consumed_cons_app (l s : list ascii) (c : ascii) :
  consumed (c :: l ++ s) s = c :: l.
Proof. exact (consumed_app (c :: l) s). Qed.

Lemma consumed_frac (ds fs s : list ascii) (d c : ascii) :
  consumed (d :: ds ++ c :: fs ++ s) s = d :: ds ++ c :: fs.
Proof.
  replace (d :: ds ++ c :: fs ++ s) with ((d :: ds ++ c :: fs) ++ s).
  - apply consumed_app.
  - simpl. rewrite <- app_assoc. reflexivity.
Qed.

Lemma consumed_point (ds s : list ascii) (c d : ascii) :
  consumed (c :: d :: ds ++ s) s = c :: d :: ds.
Proof. exact (consumed_app (c :: d :: ds) s). Qed.

(** Group 1 of every match of [NUMBER_PATTERN] holds a mantissa. *)
Lemma NUMBER_PATTERN_group1 (s rest : list ascii) (g : groups) :
  match_here NUMBER_PATTERN s = Some (rest, g) ->
  exists t, group_text 1 g = Some t /\ mantissa t.
Proof.
  unfold match_here. intros H.
  apply rmatch_matched in H. destruct H as [s' [g' [H E]]].
  injection E as <- <-. unfold NUMBER_PATTERN in H.
  invert_matched; simpl;
    repeat match goal with
           | H : is_dot ?c = true |- _ =>
               apply Ascii.eqb_eq in H; subst c
           end;
    rewrite ?consumed_cons_app, ?consumed_frac, ?consumed_point;
    eexists; (split; [reflexivity|]);
    solve [ apply mantissa_int; assumption
          | apply mantissa_frac; assumption
          | apply mantissa_point; assumption ].
Qed.

(** *** [float()] on a mantissa *)

Lemma chars_text_of (l : list ascii) : chars (text_of l) = l.
Proof. apply list_ascii_of_string_of_list_ascii. Qed.

Lemma span_digits_all (ds : list ascii) :
  Forall (fun c => is_digit c = true) ds -> span_digits ds = (ds, []).
Proof.
  induction 1 as [|c ds Hc Hds IH]; simpl; [reflexivity|].
  rewrite Hc, IH. reflexivity.
Qed.

Lemma span_digits_stop (ds rest : list ascii) (c : ascii) :
  Forall (fun c => is_digit c = true) ds -> is_digit c = false ->
  span_digits (ds ++ c :: rest) = (ds, c :: rest).
Proof.
  intros Hds Hc. induction Hds as [|d ds Hd Hds IH]; simpl.
  - rewrite Hc. reflexivity.
  - rewrite Hd, IH. reflexivity.
Qed.

Lemma split_sign_digit (d : ascii) (l : list ascii) :
  is_digit d = true -> split_sign (d :: l) = (false, d :: l).
Proof.
  intros Hd. unfold split_sign.
  destruct (Ascii.eqb d "-") eqn:E1;
    [apply Ascii.eqb_eq in E1; subst; discriminate|].
  destruct (Ascii.eqb d "+") eqn:E2;
    [apply Ascii.eqb_eq in E2; subst; discriminate|].
  reflexivity.
Qed.

Lemma digits_val_nonneg (ds : list ascii) :
  Forall (fun c => is_digit c = true) ds -> (0 <= digits_val ds)%Z.
Proof.
  unfold digits_val. intros H.
  assert (G : forall acc, (0 <= acc)%Z ->
              (0 <= fold_left (fun a c => 10 * a + digit_val c) ds acc)%Z).
  { induction H as [|c ds Hc Hds IH]; intros acc Hacc; cbn [fold_left];
      [exact Hacc|].
    apply IH. unfold is_digit in Hc. cbv zeta in Hc.
    apply andb_prop in Hc. destruct Hc as [Hc _]. apply Nat.leb_le in Hc.
    unfold digit_val. lia. }
  apply G. lia.
Qed.

Lemma scaled_nonneg (m e : Z) :
  (0 <= m)%Z -> (0 <= Qred (inject_Z m * pow10 e))%Q.
Proof.
  intros Hm. rewrite Qred_correct. apply Qmult_le_0_compat.
  - unfold Qle. simpl. lia.
  - apply Qpower_0_le. discriminate.
Qed.

Lemma py_float_mantissa (t : list ascii) :
  mantissa t -> exists q, py_float (text_of t) = Ok q /\ (0 <= q)%Q.
Proof.
  intros H. unfold py_float. rewrite chars_text_of.
  destruct H as [d ds Hd Hds|d ds fs Hd Hds Hfs|f fs Hf Hfs].
  - rewrite (split_sign_digit d ds Hd).
    rewrite (span_digits_all (d :: ds)) by (constructor; assumption).
    cbn [List.length Nat.add Nat.eqb rbind].
    eexists. split; [reflexivity|].
    apply scaled_nonneg, digits_val_nonneg.
    rewrite app_nil_r. constructor; assumption.
  - rewrite (split_sign_digit d _ Hd).
    change (d :: ds ++ "."%char :: fs) with ((d :: ds) ++ "."%char :: fs).
    rewrite (span_digits_stop (d :: ds) fs ".")
      by (try constructor; auto).
    change (is_dot ".") with true. cbv iota.
    rewrite (span_digits_all fs Hfs).
    cbn [List.length Nat.add Nat.eqb rbind].
    eexists. split; [reflexivity|].
    apply scaled_nonneg, digits_val_nonneg.
    apply Forall_app. split; [constructor|]; assumption.
  - cbn [split_sign]. change (Ascii.eqb "." "-") with false.
    change (Ascii.eqb "." "+") with false. cbv iota.
    cbn [span_digits]. change (is_digit ".") with false.
    change (is_dot ".") with true. cbv iota.
    rewrite (span_digits_all (f :: fs)) by (constructor; assumption).
    cbn [List.length Nat.add Nat.eqb rbind].
    eexists. split; [reflexivity|].
    apply scaled_nonneg, digits_val_nonneg.
    constructor; assumption.
Qed.

Lemma findall_head (r : regex) (n : nat) (s : list ascii)
      (v : list string) (vs : list (list string)) :
  findall_from r n 0 s = v :: vs ->
  exists s' rest g, match_here r s' = Some (rest, g) /\ v = group_tuple n g.
Proof.
  induction s as [|c s IH]; simpl; intros H.
  - destruct (match_here r []) as [[rest g]|] eqn:E; [|discriminate].
    injection H as <- _. exists [], rest, g. auto.
  - destruct (match_here r (c :: s)) as [[rest g]|] eqn:E.
    + injection H as <- _. exists (c :: s), rest, g. auto.
    + apply IH. exact H.
Qed.

(** [strip_units] returns a value exactly when the text holds a number,
    and the value it returns is never negative: the sign in front of the
    mantissa does not reach [float()]. *)
Lemma strip_units_value (s : string) :
  first_match NUMBER_PATTERN s <> None ->
  exists q, strip_units s = Ok q /\ (0 <= q)%Q.
Proof.
  intros H. unfold strip_units, findall.
  destruct (findall_from NUMBER_PATTERN 3 0 (chars s)) as [|v vs] eqn:E.
  - exfalso. apply H. unfold first_match.
    rewrite (findall_nil_search _ _ _ E). reflexivity.
  - destruct (findall_head _ _ _ _ _ E) as [s' [rest [g [Hm ->]]]].
    destruct (NUMBER_PATTERN_group1 _ _ _ Hm) as [t [Ht Hmant]].
    cbn [nth_result nth_error rbind]. unfold group_tuple.
    cbn [seq map nth_result nth_error rbind]. rewrite Ht.
    apply py_float_mantissa. exact Hmant.
Qed.

Lemma strip_units_nonnegative (s : string) (q : Q) :
  strip_units s = Ok q -> (0 <= q)%Q.
Proof.
  intros H.
  destruct (first_match NUMBER_PATTERN s) as [m|] eqn:E.
  - destruct (strip_units_value s) as [q' [Hq' Hpos]]; [congruence|].
    rewrite Hq' in H. injection H as <-. exact Hpos.
  - unfold first_match in E. unfold strip_units, findall in H.
    rewrite search_none_findall in H; [discriminate|].
    destruct (search_from NUMBER_PATTERN (chars s)); [discriminate | reflexivity].
Qed.

(** C9: text that holds no numeric substring (no match of
    [NUMBER_PATTERN], which by [no_number_iff_no_digit] means no digit at
    all) makes [strip_units] raise [IndexError]; no default value is
    returned. *)
Theorem strip_units_without_number (s : string) :
  first_match NUMBER_PATTERN s = None -> strip_units s = Raise IndexError.
Proof.
  intros H. unfold strip_units, findall.
  rewrite search_none_findall; [reflexivity|].
  unfold first_match in H.
  destruct (search_from NUMBER_PATTERN (chars s)); [discriminate | reflexivity].
Qed.

Lemma strip_units_without_number_witness :
  first_match NUMBER_PATTERN "kt (n/a)" = None /\
  strip_units "kt (n/a)" = Raise IndexError.
Proof.
  split; [reflexivity|].
  apply (strip_units_without_number "kt (n/a)"). reflexivity.
Defined.

(** C1: [strip_units] hands group 1 of the first match to [float()], and
    group 1 is the mantissa only.  On ["-2"] the first numeric substring is
    ["-2"], of value -2, and the function returns 2; on ["1.2e3 m"] it is
    ["1.2e3"], of value 1200, and the function returns 6/5; on ["34.5 kt"]
    the two agree on 69/2. *)
Theorem strip_units_loses_sign_and_exponent :
  (first_match NUMBER_PATTERN "-2" = Some "-2" /\
   py_float "-2" = Ok (-2 # 1) /\
   strip_units "-2" = Ok (2 # 1)) /\
  (first_match NUMBER_PATTERN "1.2e3 m" = Some "1.2e3" /\
   py_float "1.2e3" = Ok (1200 # 1) /\
   strip_units "1.2e3 m" = Ok (6 # 5)) /\
  (first_match NUMBER_PATTERN "34.5 kt" = Some "34.5" /\
   py_float "34.5" = Ok (69 # 2) /\
   strip_units "34.5 kt" = Ok (69 # 2)).
Proof.
  repeat split; vm_compute; reflexivity.
Qed.

(** ** The listing-page scraper *)

(** C10: a listing page whose pager row holds no link makes [max_page_no]
    raise [IndexError], whatever its pager spans are: the last label is
    read from the links alone, before any label is converted. *)
Theorem max_page_no_without_links (doc : soup) :
  select SEL_PAGER_A doc = [] -> max_page_no doc = Raise IndexError.
Proof.
  intros H. unfold max_page_no, pager_links. rewrite H. reflexivity.
Qed.

Lemma max_page_no_without_links_witness :
  let doc := listing "1" ["A001"] [current "1"; current "2"; current "3"] in
  select SEL_PAGER_A doc = [] /\
  pager_spans doc = ["1"; "2"; "3"] /\
  max_page_no doc = Raise IndexError.
Proof.
  cbv zeta. split; [reflexivity|]. split; [reflexivity|].
  apply (max_page_no_without_links
           (listing "1" ["A001"] [current "1"; current "2"; current "3"])).
  reflexivity.
Defined.

Lemma py_int_outcome (t : string) :
  (exists z, py_int t = Ok z) \/ py_int t = Raise ValueError.
Proof.
  unfold py_int. destruct (split_sign (int_strip (chars t))) as [neg l].
  destruct (int_digits l false) as [ds|]; [|right; reflexivity].
  destruct (INT_MAX_STR_DIGITS <? Z.of_nat (List.length ds))%Z;
    [right; reflexivity | left; eexists; reflexivity].
Qed.

Lemma ints_of_ok (l : list string) :
  (forall t, In t l -> exists z, py_int t = Ok z) ->
  exists ns, ints_of l = Ok ns /\ Forall2 (fun t z => py_int t = Ok z) l ns.
Proof.
  induction l as [|t l IH]; intros H; simpl.
  - exists []. split; [reflexivity | constructor].
  - destruct (H t (or_introl eq_refl)) as [z Hz].
    destruct IH as [ns [Hns HF]]; [intros u Hu; apply H; right; exact Hu|].
    exists (z :: ns). rewrite Hz, Hns. simpl.
    split; [reflexivity | constructor; assumption].
Qed.

Lemma ints_of_error (l : list string) (t : string) :
  In t l -> py_int t = Raise ValueError -> ints_of l = Raise ValueError.
Proof.
  induction l as [|u l IH]; intros Hin Ht; [contradiction|].
  simpl. destruct (py_int_outcome u) as [[z Hz]|Hu].
  - rewrite Hz. simpl. destruct Hin as [->|Hin]; [congruence|].
    rewrite IH by assumption. reflexivity.
  - rewrite Hu. reflexivity.
Qed.

Lemma fold_left_max_ge (l : list Z) (x : Z) :
  (x <= fold_left Z.max l x)%Z /\
  (forall z, In z l -> (z <= fold_left Z.max l x)%Z) /\
  (fold_left Z.max l x = x \/ In (fold_left Z.max l x) l).
Proof.
  revert x. induction l as [|y l IH]; intros x; simpl.
  - split; [lia|]. split; [contradiction | left; reflexivity].
  - destruct (IH (Z.max x y)) as [H1 [H2 H3]].
    split; [lia|]. split.
    + intros z [->|Hz]; [lia | apply H2; exact Hz].
    + destruct H3 as [H3|H3]; [|right; right; exact H3].
      rewrite H3. destruct (Z.max_spec x y) as [[_ ->]|[_ ->]];
        [right; left; reflexivity | left; reflexivity].
Qed.

Lemma py_max_spec (l : list Z) :
  l <> [] ->
  exists n, py_max l = Ok n /\ In n l /\ forall z, In z l -> (z <= n)%Z.
Proof.
  destruct l as [|x l]; intros H; [congruence|].
  simpl. exists (fold_left Z.max l x).
  destruct (fold_left_max_ge l x) as [H1 [H2 H3]].
  split; [reflexivity|]. split.
  - destruct H3 as [->|H3]; [left; reflexivity | right; exact H3].
  - intros z [<-|Hz]; [exact H1 | apply H2; exact Hz].
Qed.

Lemma rev_last {A : Type} (l : list A) (d : A) :
  l <> [] -> exists rest, rev l = last l d :: rest.
Proof.
  intros H. destruct (exists_last H) as [l' [x ->]].
  rewrite rev_app_distr, last_last. simpl. eexists; reflexivity.
Qed.

(** The labels [max_page_no] converts: every pager label but the ellipsis. *)
Lemma converted_labels (doc : soup) (t : string) :
  In t (filter (fun e => negb (String.eqb e ELLIPSIS))
          (py_set (py_set (pager_links doc) ++ py_set (pager_spans doc)))) <->
  In t (pager_labels doc) /\ t <> ELLIPSIS.
Proof.
  unfold py_set, pager_labels.
  rewrite filter_In, nodup_In, !in_app_iff, !nodup_In.
  rewrite negb_true_iff, String.eqb_neq. reflexivity.
Qed.

(** A pager label that is neither the ellipsis nor an integer is not
    skipped: it makes the conversion, and with it [max_page_no], raise
    [ValueError]. *)
Lemma max_page_no_label_error (doc : soup) (t : string) :
  pager_links doc <> [] ->
  In t (pager_labels doc) -> t <> ELLIPSIS ->
  py_int t = Raise ValueError ->
  max_page_no doc = Raise ValueError.
Proof.
  intros Hl Hin Hne Ht. unfold max_page_no.
  destruct (rev_last (pager_links doc) EmptyString Hl) as [rest ->].
  cbn [rbind].
  rewrite (ints_of_error _ t); [reflexivity | | exact Ht].
  apply converted_labels. split; assumption.
Qed.

(** C2, as the code has it: on a listing page with at least one pager
    link, whose pager labels other than ["..."] all read as integers and
    are not all missing, [max_page_no] returns the largest of these
    integers, one more exactly when the label of the last pager link is
    ["..."]. *)
Theorem max_page_no_spec (doc : soup) :
  pager_links doc <> [] ->
  (forall t, In t (pager_labels doc) -> t <> ELLIPSIS ->
             exists z, py_int t = Ok z) ->
  (exists t, In t (pager_labels doc) /\ t <> ELLIPSIS) ->
  exists n,
    (exists t, In t (pager_labels doc) /\ t <> ELLIPSIS /\ py_int t = Ok n) /\
    (forall t z, In t (pager_labels doc) -> t <> ELLIPSIS ->
                 py_int t = Ok z -> (z <= n)%Z) /\
    max_page_no doc =
      Ok (if String.eqb (last (pager_links doc) EmptyString) ELLIPSIS
          then (n + 1)%Z else n).
Proof.
  intros Hl Hall [t0 [Hin0 Hne0]]. unfold max_page_no.
  destruct (rev_last (pager_links doc) EmptyString Hl) as [rest ->].
  cbn [rbind].
  set (conv := filter (fun e => negb (String.eqb e ELLIPSIS))
                 (py_set (py_set (pager_links doc)
                          ++ py_set (pager_spans doc)))).
  assert (Hconv : forall t, In t conv <-> In t (pager_labels doc) /\ t <> ELLIPSIS)
    by (intros t; apply converted_labels).
  destruct (ints_of_ok conv) as [ns [Hns HF]].
  { intros t Ht. apply Hconv in Ht. destruct Ht; auto. }
  rewrite Hns. cbn [rbind].
  assert (Hin_ns : forall z, In z ns <-> exists t, In t conv /\ py_int t = Ok z).
  { clear - HF. induction HF as [|t z l l' Htz HF IH]; intros z0; simpl.
    - split; [contradiction | intros [t [[] _]]].
    - rewrite IH. split.
      + intros [<-|[u [Hu Hz]]]; [exists t; auto | exists u; auto].
      + intros [u [[<-|Hu] Hz]]; [left; congruence | right; exists u; auto]. }
  destruct (py_max_spec (nodup Z.eq_dec ns)) as [n [Hn [Hinn Hmax]]].
  { assert (Hc : In t0 conv) by (apply Hconv; auto).
    destruct (Hall t0 Hin0 Hne0) as [z0 Hz0].
    assert (Hz : In z0 (nodup Z.eq_dec ns))
      by (apply nodup_In, Hin_ns; exists t0; auto).
    intros E. rewrite E in Hz. contradiction. }
  rewrite Hn. cbn [rbind]. exists n. split; [|split].
  - apply nodup_In, Hin_ns in Hinn. destruct Hinn as [t [Ht Hz]].
    apply Hconv in Ht. destruct Ht. exists t. auto.
  - intros t z Hin Hne Hz. apply Hmax, nodup_In, Hin_ns.
    exists t. split; [apply Hconv; auto | exact Hz].
  - reflexivity.
Qed.

Lemma max_page_no_spec_witness :
  let doc := listing "1" ["A001"]
               [current "1"; link "2"; link "7"; link "..."] in
  max_page_no doc = Ok 8%Z /\
  exists n,
    (exists t, In t (pager_labels doc) /\ t <> ELLIPSIS /\ py_int t = Ok n) /\
    (forall t z, In t (pager_labels doc) -> t <> ELLIPSIS ->
                 py_int t = Ok z -> (z <= n)%Z) /\
    max_page_no doc =
      Ok (if String.eqb (last (pager_links doc) EmptyString) ELLIPSIS
          then (n + 1)%Z else n).
Proof.
  cbv zeta. split; [reflexivity|].
  apply (max_page_no_spec
           (listing "1" ["A001"]
              [current "1"; link "2"; link "7"; link "..."])).
  - discriminate.
  - intros t Hin Hne. simpl in Hin.
    destruct Hin as [<-|[<-|[<-|[<-|[]]]]];
      try (eexists; reflexivity).
    exfalso. apply Hne. reflexivity.
  - exists "1". split; [simpl; auto | discriminate].
Defined.

(** The two pager rows of the specification's examples: links 1, 2, 7 and
    a last link ["..."] give 8; labels 1, 2, 3 without ellipsis give 3. *)
Example max_page_no_examples :
  max_page_no (listing "1" [] [link "1"; link "2"; link "7"; link "..."])
    = Ok 8%Z /\
  max_page_no (listing "1" [] [link "1"; link "2"; link "3"]) = Ok 3%Z /\
  max_page_no (listing "1" [] [current "1"; link "2"; link "3"]) = Ok 3%Z.
Proof.
  repeat split; reflexivity.
Qed.

(** C2 as stated fails: with pager links 1, 2 and Next the strictly
    numeric labels are 1 and 2 and the last label is not the ellipsis, so
    the bound of the specification is 2; [max_page_no] raises
    [ValueError], since it converts every label but ["..."]. *)
Lemma max_page_no_not_spec_max_page :
  let doc := listing "1" ["A001"] [link "1"; link "2"; link "Next"] in
  pager_labels doc = ["1"; "2"; "Next"] /\
  spec_max_page (pager_labels doc) = 2%Z /\
  max_page_no doc = Raise ValueError /\
  max_page_no doc <> Ok (spec_max_page (pager_labels doc)).
Proof.
  cbv zeta. repeat split; try reflexivity. discriminate.
Qed.

(** ** The detail-page scraper *)

Lemma settled_bind {A B : Type} (r : result A) (f : A -> result B) :
  settled r -> (forall a, settled (f a)) -> settled (rbind r f).
Proof.
  unfold settled. intros Hr Hf.
  destruct r; simpl; [apply Hf | discriminate | congruence].
Qed.

Lemma settled_nth_result {A : Type} (l : list A) (i : nat) :
  settled (nth_result l i).
Proof.
  unfold settled, nth_result. destruct (nth_error l i); discriminate.
Qed.

Lemma settled_first_text (doc : soup) (sel : selector) :
  settled (first_text doc sel).
Proof.
  unfold first_text. apply settled_bind; [apply settled_nth_result|].
  intros a. discriminate.
Qed.

Lemma settled_py_int (t : string) : settled (py_int t).
Proof.
  unfold settled. destruct (py_int_outcome t) as [[z ->]| ->]; discriminate.
Qed.

Lemma settled_py_float (t : string) : settled (py_float t).
Proof.
  unfold py_float.
  destruct (split_sign (chars t)) as [neg l0].
  destruct (span_digits l0) as [ip l1].
  match goal with
  | |- context [let '(fp, l2) := ?x in _] => destruct x as [fp l2]
  end.
  destruct (_ =? 0)%nat; [discriminate|].
  apply settled_bind; [|intros e; discriminate].
  destruct l2 as [|c l3]; [discriminate|].
  destruct (is_e c); [|discriminate].
  destruct (split_sign l3) as [eneg l4].
  destruct (span_digits l4) as [[|d ed] [|x l5]]; discriminate.
Qed.

Lemma settled_strip_units (t : string) : settled (strip_units t).
Proof.
  unfold strip_units.
  apply settled_bind; [apply settled_nth_result|]. intros v0.
  apply settled_bind; [apply settled_nth_result|]. intros g1.
  apply settled_py_float.
Qed.

Lemma first_text_present (doc : soup) (sel : selector) :
  present doc sel = true -> first_text doc sel = Ok (label_text doc sel).
Proof.
  unfold present, first_text, label_text, nth_result.
  destruct (select sel doc); [discriminate | reflexivity].
Qed.

Lemma first_text_absent (doc : soup) (sel : selector) :
  select sel doc = [] -> first_text doc sel = Raise IndexError.
Proof.
  unfold first_text. intros ->. reflexivity.
Qed.

Ltac step_result H :=
  match type of H with
  | context [rbind ?r _] =>
      let E := fresh "E" in
      destruct r eqn:E; cbn [rbind] in H; try discriminate H
  end.

Lemma scrape_icao_settled (html_parser : string -> soup) (raw : string) :
  settled (scrape_icao html_parser raw).
Proof.
  unfold scrape_icao.
  repeat (apply settled_bind;
          [first [apply settled_first_text | apply settled_strip_units
                 | apply settled_py_int] | intros ?]).
  discriminate.
Qed.

(** Whatever [scrape_icao] returns has the eight fields of [KEYS], in
    order. *)
Lemma scrape_icao_keys (html_parser : string -> soup) (raw : string)
      (r : dict value) :
  scrape_icao html_parser raw = Ok r -> dict_keys r = KEYS.
Proof.
  intros E. unfold scrape_icao in E. repeat step_result E.
  injection E as <-. reflexivity.
Qed.

(** The record [scrape_icao] builds when every step succeeds. *)
Lemma scrape_icao_record (html_parser : string -> soup) (raw : string)
      (span len height tas : Q) (ceiling : Z) :
  let doc := html_parser raw in
  elements_present doc = true ->
  strip_units (label_text doc (span_id "MainContent_wsLabelWingSpan"))
    = Ok span ->
  strip_units (label_text doc (span_id "MainContent_wsLabelLength"))
    = Ok len ->
  strip_units (label_text doc (span_id "MainContent_wsLabelHeight"))
    = Ok height ->
  strip_units (label_text doc (span_datagraph "cruiseTAS")) = Ok tas ->
  py_int (label_text doc (span_datagraph "cruiseCeiling")) = Ok ceiling ->
  scrape_icao html_parser raw =
    Ok [ ("ICAO",
          VStr (label_text doc (span_id "MainContent_wsICAOLabel")));
         ("AircraftName",
          VStr (label_text doc (span_id "MainContent_wsAcftNameLabel")));
         ("Manufacturer",
          VStr (label_text doc (span_id "MainContent_wsManufacturerLabel")));
         ("WingSpan_m", VFloat span);
         ("Lenght_m", VFloat len);
         ("Height_m", VFloat height);
         ("Cruise_kt", VFloat tas);
         ("CruiseCeiling_FL", VInt ceiling) ].
Proof.
  cbv zeta. intros Hp H4 H5 H6 H7 H8.
  unfold elements_present in Hp. simpl in Hp.
  repeat (apply andb_prop in Hp; destruct Hp as [? Hp]).
  unfold scrape_icao.
  repeat (rewrite first_text_present by assumption; cbn [rbind]).
  rewrite H4; cbn [rbind].
  repeat (rewrite first_text_present by assumption; cbn [rbind]).
  rewrite H5; cbn [rbind].
  repeat (rewrite first_text_present by assumption; cbn [rbind]).
  rewrite H6; cbn [rbind].
  repeat (rewrite first_text_present by assumption; cbn [rbind]).
  rewrite H7; cbn [rbind].
  repeat (rewrite first_text_present by assumption; cbn [rbind]).
  rewrite H8; cbn [rbind].
  reflexivity.
Qed.

(** C6, as the code has it: when the eight expected elements are present,
    the wing-span, length, height and cruise-speed texts hold a numeric
    substring and the cruise-ceiling text reads as an integer,
    [scrape_icao] returns the record of exactly the eight fields of
    [KEYS], in that order, the four measures being what [strip_units]
    makes of their texts and the ceiling the integer read; when an
    expected element is absent it raises; and whatever it returns has
    exactly the eight fields: there is no partial record. *)
Theorem scrape_icao_spec (html_parser : string -> soup) (raw : string) :
  let doc := html_parser raw in
  let span_text := label_text doc (span_id "MainContent_wsLabelWingSpan") in
  let len_text := label_text doc (span_id "MainContent_wsLabelLength") in
  let height_text := label_text doc (span_id "MainContent_wsLabelHeight") in
  let tas_text := label_text doc (span_datagraph "cruiseTAS") in
  let ceiling_text := label_text doc (span_datagraph "cruiseCeiling") in
  (forall ceiling : Z,
      elements_present doc = true ->
      first_match NUMBER_PATTERN span_text <> None ->
      first_match NUMBER_PATTERN len_text <> None ->
      first_match NUMBER_PATTERN height_text <> None ->
      first_match NUMBER_PATTERN tas_text <> None ->
      py_int ceiling_text = Ok ceiling ->
      exists span len height tas : Q,
        strip_units span_text = Ok span /\
        strip_units len_text = Ok len /\
        strip_units height_text = Ok height /\
        strip_units tas_text = Ok tas /\
        scrape_icao html_parser raw =
          Ok [ ("ICAO",
                VStr (label_text doc (span_id "MainContent_wsICAOLabel")));
               ("AircraftName",
                VStr (label_text doc
                        (span_id "MainContent_wsAcftNameLabel")));
               ("Manufacturer",
                VStr (label_text doc
                        (span_id "MainContent_wsManufacturerLabel")));
               ("WingSpan_m", VFloat span);
               ("Lenght_m", VFloat len);
               ("Height_m", VFloat height);
               ("Cruise_kt", VFloat tas);
               ("CruiseCeiling_FL", VInt ceiling) ]) /\
  (forall sel, In sel DETAIL_SELECTORS -> select sel doc = [] ->
               exists e, scrape_icao html_parser raw = Raise e) /\
  (forall r, scrape_icao html_parser raw = Ok r -> dict_keys r = KEYS).
Proof.
  cbv zeta. split; [|split].
  - intros ceiling Hp N4 N5 N6 N7 H8.
    destruct (strip_units_value _ N4) as [span [H4 _]].
    destruct (strip_units_value _ N5) as [len [H5 _]].
    destruct (strip_units_value _ N6) as [height [H6 _]].
    destruct (strip_units_value _ N7) as [tas [H7 _]].
    exists span, len, height, tas.
    repeat (split; [assumption|]).
    apply scrape_icao_record; assumption.
  - intros sel Hin Habs.
    destruct (scrape_icao html_parser raw) as [r|e|] eqn:E.
    + exfalso. apply first_text_absent in Habs.
      unfold scrape_icao in E. repeat step_result E.
      simpl in Hin.
      repeat (destruct Hin as [<-|Hin]; [congruence|]). exact Hin.
    + exists e. reflexivity.
    + exfalso. exact (scrape_icao_settled html_parser raw E).
  - apply scrape_icao_keys.
Qed.

Lemma scrape_icao_spec_witness :
  let doc := detail_page "A001" "Test Jet" "Acme"
               "34.1 m" "30.0 m" "10.0 m" "450 kt" "410" in
  elements_present doc = true /\
  exists span len height tas : Q,
    strip_units "34.1 m" = Ok span /\
    strip_units "30.0 m" = Ok len /\
    strip_units "10.0 m" = Ok height /\
    strip_units "450 kt" = Ok tas /\
    scrape_icao (fun _ => doc) "A001.html" =
      Ok [ ("ICAO", VStr "A001");
           ("AircraftName", VStr "Test Jet");
           ("Manufacturer", VStr "Acme");
           ("WingSpan_m", VFloat span);
           ("Lenght_m", VFloat len);
           ("Height_m", VFloat height);
           ("Cruise_kt", VFloat tas);
           ("CruiseCeiling_FL", VInt 410) ].
Proof.
  cbv zeta. split; [reflexivity|].
  apply (proj1 (scrape_icao_spec
                  (fun _ => detail_page "A001" "Test Jet" "Acme"
                              "34.1 m" "30.0 m" "10.0 m" "450 kt" "410")
                  "A001.html") 410%Z);
    solve [reflexivity | discriminate].
Defined.

(** The record of the page above, evaluated. *)
Example scrape_icao_demo :
  scrape_icao (table_parser demo_site) "A001.html" = Ok demo_record.
Proof. reflexivity. Qed.

(** C6 as stated fails: on a detail page that has all eight expected
    elements but whose wing-span text holds no number, [scrape_icao]
    returns no record; it raises the [IndexError] of [strip_units]. *)
Lemma scrape_icao_all_present_yet_raises :
  let doc := detail_page "A001" "Test Jet" "Acme"
               "n/a" "30.0 m" "10.0 m" "450 kt" "410" in
  elements_present doc = true /\
  scrape_icao (fun _ => doc) "A001.html" = Raise IndexError /\
  ~ exists r, scrape_icao (fun _ => doc) "A001.html" = Ok r.
Proof.
  cbv zeta. split; [reflexivity|]. split; [reflexivity|].
  intros [r H]. discriminate H.
Qed.

(** ** The pagination walker *)

Section Walker.

Context {Server : Type}.
Variable respond : request -> Server -> result string * Server.
Variable html_parser : string -> soup.

Lemma walk_pages_history (fuel : nat) :
  forall (n max_page : Z) (st : PageState) (ds : list string)
         (w : world Server) (raw : string),
    PageState_extract (html_parser raw) = Ok st ->
    exists exs,
      history (snd (walk_pages respond html_parser fuel n max_page st ds w))
        = history w ++ exs /\
      follows html_parser n (Ok raw) exs.
Proof.
  induction fuel as [|fuel IH]; intros n max_page st ds w raw Hst; simpl.
  - destruct (n <? max_page)%Z; exists []; rewrite app_nil_r;
      split; reflexivity || exact I.
  - destruct (n <? max_page)%Z;
      [|exists []; rewrite app_nil_r; split; reflexivity || exact I].
    unfold bind at 1. unfold retrieve_page, bind at 1, rq_post, send.
    destruct (respond _ (server w)) as [r srv] eqn:Er.
    assert (Hq : exists raw0 st0,
               Ok raw = Ok raw0 /\
               PageState_extract (html_parser raw0) = Ok st0 /\
               page_request (n + 1) st = page_request (n + 1) st0)
      by (exists raw, st; auto).
    destruct r as [raw'|e|]; simpl;
      try (eexists [_]; split; [reflexivity | simpl; split; [exact Hq | exact I]]).
    unfold bind at 1, lift.
    destruct (PageState_extract (html_parser raw')) as [st'|e|] eqn:Est; simpl;
      try (eexists [_]; split; [reflexivity | simpl; split; [exact Hq | exact I]]).
    unfold bind at 1.
    destruct (max_page_no (html_parser raw')) as [m|e|]; simpl;
      try (eexists [_]; split; [reflexivity | simpl; split; [exact Hq | exact I]]).
    unfold bind at 1, wait. simpl.
    match goal with
    | |- context [walk_pages _ _ fuel ?n' ?m' ?s' ?d' ?w'] =>
        destruct (IH n' m' s' d' w' raw' Est) as [exs [Hh Hf]]
    end.
    rewrite Hh. simpl. rewrite <- app_assoc. simpl.
    eexists. split; [reflexivity|]. simpl. split; [exact Hq | exact Hf].
Qed.

(** C4: whatever the transport answers and however the walk ends, the
    exchanges [retrieve_designators] adds to the history are the [GET] of
    the front page followed by postbacks of which each one carries exactly
    the [PageState] extracted from the response immediately before it, for
    the next page number; a state therefore serves the one postback that
    follows its response and no other. *)
Theorem postback_uses_preceding_state (fuel : nat) (w : world Server) :
  exists exs,
    history (snd (retrieve_designators respond html_parser fuel w))
      = history w ++ exs /\
    walk_exchanges html_parser exs.
Proof.
  unfold retrieve_designators.
  unfold bind at 1. unfold retrieve_front, bind at 1, rq_get, send.
  destruct (respond (GET URL) (server w)) as [r srv] eqn:Er.
  destruct r as [raw|e|]; simpl;
    try (eexists [_]; split; [reflexivity | simpl; split; [reflexivity | exact I]]).
  unfold bind at 1, lift.
  destruct (PageState_extract (html_parser raw)) as [st|e|] eqn:Est; simpl;
    try (eexists [_]; split; [reflexivity | simpl; split; [reflexivity | exact I]]).
  unfold bind at 1.
  destruct (max_page_no (html_parser raw)) as [m|e|]; simpl;
    try (eexists [_]; split; [reflexivity | simpl; split; [reflexivity | exact I]]).
  unfold bind at 1, wait. simpl.
  match goal with
  | |- context [walk_pages _ _ fuel ?n' ?m' ?s' ?d' ?w'] =>
      destruct (walk_pages_history fuel n' m' s' d' w' raw Est) as [exs [Hh Hf]]
  end.
  rewrite Hh. simpl. rewrite <- app_assoc. simpl.
  eexists. split; [reflexivity|]. simpl. split; [reflexivity | exact Hf].
Qed.

End Walker.

(** *** The walker against a scripted transport *)

Section Scripted.

Variable html_parser : string -> soup.





End Scripted.



(** ** Live fetch and cache bypass *)

Lemma dict_get_set_same {V : Type} (k : string) (v : V) (d : dict V) :
  dict_get k (dict_set k v d) = Some v.
Proof.
  induction d as [|[k' v'] d IH]; simpl.
  - rewrite String.eqb_refl. reflexivity.
  - destruct (String.eqb k k') eqn:E; simpl; rewrite E; [reflexivity | exact IH].
Qed.

Lemma dict_set_fresh {V : Type} (k : string) (v : V) (d : dict V) :
  ~ In k (dict_keys d) -> dict_set k v d = d ++ [(k, v)].
Proof.
  induction d as [|[k' v'] d IH]; simpl; intros H; [reflexivity|].
  destruct (String.eqb k k') eqn:E.
  - apply String.eqb_eq in E. subst. exfalso. apply H. left. reflexivity.
  - rewrite IH; [reflexivity|]. intros Hin. apply H. right. exact Hin.
Qed.

Lemma fold_dict_set_nodup (its : list (string * string)) :
  forall d0 : dict string,
    NoDup (dict_keys (d0 ++ its)) ->
    fold_left (fun p it => dict_set (fst it) (snd it) p) its d0 = d0 ++ its.
Proof.
  induction its as [|[d raw] its IH]; intros d0 Hnd; simpl.
  - rewrite app_nil_r. reflexivity.
  - assert (Hfresh : ~ In d (dict_keys d0)).
    { unfold dict_keys in *. rewrite map_app in Hnd. simpl in Hnd.
      apply NoDup_remove_2 in Hnd. intros Hin. apply Hnd.
      apply in_or_app. left. exact Hin. }
    rewrite (dict_set_fresh d raw d0 Hfresh).
    rewrite IH; rewrite <- app_assoc; simpl; [reflexivity | exact Hnd].
Qed.

Section Details.

Context {Server : Type}.
Variable respond : request -> Server -> result string * Server.
Variable html_parser : string -> soup.

Lemma details_loop_items (its : list (string * string)) :
  forall (details : list (dict value)) (pages0 : dict string)
         (w : world Server),
    (forall d raw srv, In (d, raw) its ->
                       fst (respond (GET (details_url d)) srv) = Ok raw) ->
    fst (details_loop respond html_parser (map fst its) details pages0 w) =
      (recs <- scrape_loop html_parser its details ;;
       Ok (recs,
           fold_left (fun p it => dict_set (fst it) (snd it) p) its pages0))%res.
Proof.
  induction its as [|[d raw] its IH]; intros details pages0 w Hsup; simpl.
  - reflexivity.
  - unfold bind at 1. unfold retrieve_icao, rq_get, send.
    pose proof (Hsup d raw (server w) (or_introl eq_refl)) as Hr.
    unfold details_url in Hr.
    destruct (respond _ (server w)) as [r srv]. simpl in Hr. subst r.
    unfold bind at 1, lift. rewrite dict_get_set_same.
    destruct (scrape_icao html_parser raw) as [icao|e|]; simpl;
      try reflexivity.
    unfold bind at 1, wait. simpl.
    apply IH. intros d' raw' srv' Hin. apply Hsup. right. exact Hin.
Qed.

Lemma scrape_loop_records (its : list (string * string)) :
  forall (acc out : list (dict value)),
    scrape_loop html_parser its acc = Ok out ->
    exists recs,
      out = acc ++ recs /\
      Forall2 (fun it r => scrape_icao html_parser (snd it) = Ok r) its recs.
Proof.
  induction its as [|[d raw] its IH]; intros acc out H; simpl in H.
  - injection H as <-. exists []. rewrite app_nil_r. split; constructor.
  - destruct (scrape_icao html_parser raw) as [icao|e|] eqn:E; simpl in H;
      try discriminate.
    destruct (IH _ _ H) as [recs [-> HF]].
    exists (icao :: recs). rewrite <- app_assoc. split; [reflexivity|].
    constructor; assumption.
Qed.

(** C5: for a raw-page mapping [pages] and a transport that supplies its
    raw pages, the live path fetching the designators of the mapping and
    the cache path scraping the mapping have the same outcome: the same
    records in the same order, or the same exception; the live path also
    rebuilds the mapping.  In both, the record of a designator is
    [scrape_icao] of its raw page. *)
Theorem live_and_cached_details_agree (pages : dict string)
        (w : world Server) :
  NoDup (dict_keys pages) ->
  supplies respond pages ->
  fst (retrieve_details respond html_parser (dict_keys pages) w) =
    (details <- scrape_details html_parser pages ;; Ok (details, pages))%res /\
  (forall details,
      scrape_details html_parser pages = Ok details ->
      Forall2 (fun it r => scrape_icao html_parser (snd it) = Ok r)
              pages details).
Proof.
  intros Hnd Hsup. split.
  - unfold retrieve_details, scrape_details, dict_keys.
    rewrite details_loop_items by (intros d raw srv Hin; apply Hsup; exact Hin).
    rewrite (fold_dict_set_nodup pages []) by exact Hnd. reflexivity.
  - intros details H. unfold scrape_details in H.
    destruct (scrape_loop_records _ _ _ H) as [recs [-> HF]]. exact HF.
Qed.

End Details.

Lemma live_and_cached_details_agree_witness :
  let pages := [("A001", "A001.html")] in
  let parser := table_parser demo_site in
  fst (retrieve_details (mapping_respond pages) parser ["A001"]
         (start_world tt [])) =
    (details <- scrape_details parser pages ;; Ok (details, pages))%res /\
  exists r, scrape_details parser pages = Ok [r].
Proof.
  cbv zeta. split.
  - apply (proj1 (live_and_cached_details_agree
                    (mapping_respond [("A001", "A001.html")])
                    (table_parser demo_site)
                    [("A001", "A001.html")] (start_world tt [])
                    ltac:(repeat constructor; simpl; tauto)
                    ltac:(intros d raw srv [H|[]]; injection H as <- <-;
                          reflexivity))).
  - eexists. reflexivity.
Defined.

(** ** The CSV export and the cache path of [main] *)

Lemma append_assoc3 (a b c : string) :
  ((a ++ b) ++ c)%string = (a ++ (b ++ c))%string.
Proof.
  induction a as [|x a IH]; simpl; [reflexivity | rewrite IH; reflexivity].
Qed.

Lemma append_empty_r (a : string) : (a ++ EmptyString)%string = a.
Proof.
  induction a as [|x a IH]; simpl; [reflexivity | rewrite IH; reflexivity].
Qed.

Lemma writerows_spec (float_repr : Q -> string) (rows : list (dict value)) :
  forall f : string,
    Forall (fun r => dict_keys r = KEYS) rows ->
    writerows float_repr KEYS rows f =
      (Ok tt,
       (f ++ fold_right append EmptyString
               (map (fun r => csv_line (map (cell_of float_repr r) KEYS))
                    rows))%string).
Proof.
  induction rows as [|r rows IH]; intros f H; simpl.
  - rewrite append_empty_r. reflexivity.
  - inversion H as [|? ? Hr Hrows]; subst.
    unfold dict_to_list. rewrite Hr.
    change (forallb (fun k => existsb (String.eqb k) KEYS) KEYS) with true.
    cbv iota. rewrite IH by assumption. rewrite append_assoc3. reflexivity.
Qed.

Lemma scrape_loop_keys (html_parser : string -> soup)
      (its : list (string * string)) :
  forall acc out : list (dict value),
    Forall (fun r => dict_keys r = KEYS) acc ->
    scrape_loop html_parser its acc = Ok out ->
    Forall (fun r => dict_keys r = KEYS) out.
Proof.
  induction its as [|[d raw] its IH]; intros acc out Hacc H; simpl in H.
  - injection H as <-. exact Hacc.
  - destruct (scrape_icao html_parser raw) as [icao|e|] eqn:E; simpl in H;
      try discriminate.
    apply (IH (acc ++ [icao]) out); [|exact H].
    apply Forall_app. split; [exact Hacc|].
    constructor; [|constructor].
    exact (scrape_icao_keys html_parser raw icao E).
Qed.

Lemma scrape_details_keys (html_parser : string -> soup) (pages : dict string)
      (details : list (dict value)) :
  scrape_details html_parser pages = Ok details ->
  Forall (fun r => dict_keys r = KEYS) details.
Proof.
  unfold scrape_details. apply scrape_loop_keys. constructor.
Qed.

Section CsvExport.

Context {Server : Type}.
Variable respond : request -> Server -> result string * Server.
Variable html_parser : string -> soup.
Variable float_repr : Q -> string.

Lemma write_csv_result (path : string) (details : list (dict value))
      (w : world Server) :
  Forall (fun r => dict_keys r = KEYS) details ->
  write_csv float_repr path details w =
    (Ok tt,
     {| server := server w;
        history := history w;
        sleeps := sleeps w;
        files := dict_set path (TextFile (csv_text float_repr details))
                          (files w) |}).
Proof.
  intros H. unfold write_csv, writeheader.
  rewrite (writerows_spec float_repr details _ H).
  reflexivity.
Qed.

(** C8: for records that have the eight fields (as every record of
    [scrape_icao] has), the export writes to the output path the header
    line of the field names [ICAO], [AircraftName], [Manufacturer],
    [WingSpan_m], [Lenght_m], [Height_m], [Cruise_kt], [CruiseCeiling_FL],
    in this order and with these spellings, followed by one line per
    record, in the order of the sequence, whose cells are the record's
    values in the same column order. *)
Theorem write_csv_spec (path : string) (details : list (dict value))
        (w : world Server) :
  Forall (fun r => dict_keys r = KEYS) details ->
  exists w',
    write_csv float_repr path details w = (Ok tt, w') /\
    files w' =
      dict_set path
        (TextFile
           (csv_line KEYS ++
            fold_right append EmptyString
              (map (fun r =>
                      csv_line [ cell_of float_repr r "ICAO";
                                 cell_of float_repr r "AircraftName";
                                 cell_of float_repr r "Manufacturer";
                                 cell_of float_repr r "WingSpan_m";
                                 cell_of float_repr r "Lenght_m";
                                 cell_of float_repr r "Height_m";
                                 cell_of float_repr r "Cruise_kt";
                                 cell_of float_repr r "CruiseCeiling_FL" ])
                   details))%string)
        (files w) /\
    csv_line KEYS =
      ("ICAO,AircraftName,Manufacturer,WingSpan_m,Lenght_m,Height_m,Cruise_kt,CruiseCeiling_FL"
       ++ CRLF)%string /\
    history w' = history w /\ sleeps w' = sleeps w /\ server w' = server w.
Proof.
  intros H. rewrite (write_csv_result path details w H).
  eexists. split; [reflexivity|]. repeat split; reflexivity.
Qed.

(** C7: when a cache-file path is configured and the file exists at the
    start of the run, [main] makes no request and takes no pause: the
    history, the pause count and the transport are as before, whatever the
    outcome.  When the file holds a pickled raw-page mapping that scrapes
    to [details], the run succeeds, and the one file it writes is the CSV
    of these records. *)
Theorem main_from_cache (fuel : nat) (a : args) (p : string)
        (w : world Server) :
  rawfile a = Some p ->
  dict_get p (files w) <> None ->
  exists r w',
    main respond html_parser float_repr fuel a w = (r, w') /\
    history w' = history w /\
    sleeps w' = sleeps w /\
    server w' = server w /\
    (forall pages details,
        dict_get p (files w) = Some (Pickled pages) ->
        scrape_details html_parser pages = Ok details ->
        r = Ok tt /\
        files w' =
          dict_set (output a) (TextFile (csv_text float_repr details))
                   (files w)).
Proof.
  intros Hraw Hfile. unfold main. rewrite Hraw.
  unfold bind at 1. unfold bind at 1. unfold path_exists at 1.
  destruct (dict_get p (files w)) as [f|] eqn:Ef; [|congruence].
  unfold bind at 1. unfold pickle_load. rewrite Ef.
  destruct f as [pages|txt].
  - unfold bind at 1, lift.
    destruct (scrape_details html_parser pages) as [details|e|] eqn:Es.
    + unfold ret. unfold bind at 1. unfold bind at 1.
      unfold path_exists. rewrite Ef.
      rewrite (write_csv_result (output a) details w
                 (scrape_details_keys _ _ _ Es)).
      eexists (Ok tt), _. do 4 (split; [reflexivity|]).
      intros pages' details' Hp Hd. injection Hp as <-.
      rewrite Es in Hd. injection Hd as <-.
      split; reflexivity.
    + exists (Raise e), w. do 4 (split; [reflexivity|]).
      intros pages' details' Hp Hd. injection Hp as <-. congruence.
    + exists OutOfFuel, w. do 4 (split; [reflexivity|]).
      intros pages' details' Hp Hd. injection Hp as <-. congruence.
  - exists (Raise UnpicklingError), w. do 4 (split; [reflexivity|]).
    intros pages' details' Hp Hd. discriminate.
Qed.

End CsvExport.

Lemma write_csv_spec_witness :
  exists w',
    write_csv one_decimal "out.csv" [demo_record] (start_world tt []) =
      (Ok tt, w') /\
    files w' = [("out.csv", TextFile demo_csv)].
Proof.
  destruct (write_csv_spec one_decimal "out.csv" [demo_record]
              (start_world tt []))
    as [w' [H1 [H2 _]]].
  - repeat constructor.
  - exists w'. split; [exact H1|]. rewrite H2. reflexivity.
Defined.

Lemma main_from_cache_witness :
  let cache := Pickled [("A001", "A001.html")] in
  let w := start_world ([] : list string) [("raw.pkl", cache)] in
  exists r w',
    main script_respond (table_parser demo_site) one_decimal 0
         {| output := "out.csv"; rawfile := Some "raw.pkl" |} w = (r, w') /\
    history w' = [] /\
    r = Ok tt /\
    files w' = [("raw.pkl", cache); ("out.csv", TextFile demo_csv)].
Proof.
  cbv zeta.
  destruct (main_from_cache script_respond (table_parser demo_site)
              one_decimal 0
              {| output := "out.csv"; rawfile := Some "raw.pkl" |}
              "raw.pkl"
              (start_world ([] : list string)
                 [("raw.pkl", Pickled [("A001", "A001.html")])]))
    as [r [w' [H1 [H2 [_ [_ H5]]]]]].
  - reflexivity.
  - discriminate.
  - exists r, w'. split; [exact H1|]. split; [exact H2|].
    destruct (H5 [("A001", "A001.html")] [demo_record]) as [Hr Hf];
      [reflexivity | reflexivity |].
    split; [exact Hr|]. rewrite Hf. reflexivity.
Defined.

(* ================================================================== *)
(** * Further properties of the code *)

(** ** Outcomes of the parsers *)

Lemma strip_units_cases (s : string) :
  (first_match NUMBER_PATTERN s <> None /\
   exists q, strip_units s = Ok q /\ (0 <= q)%Q) \/
  (first_match NUMBER_PATTERN s = None /\ strip_units s = Raise IndexError).
Proof.
  destruct (first_match NUMBER_PATTERN s) as [m|] eqn:E.
  - left. split; [discriminate|]. apply strip_units_value. congruence.
  - right. split; [reflexivity|]. unfold strip_units, findall.
    rewrite search_none_findall; [reflexivity|].
    unfold first_match in E.
    destruct (search_from NUMBER_PATTERN (chars s)); [discriminate | reflexivity].
Qed.

(** X1: [strip_units] has two outcomes and no other.  On text that holds
    a digit it returns a value, and that value is never negative; on text
    without a digit it raises [IndexError].  It never raises
    [ValueError]: what it hands to [float()] always reads as a number. *)
Theorem strip_units_outcome (s : string) :
  (~ no_digit s /\ exists q, strip_units s = Ok q /\ (0 <= q)%Q) \/
  (no_digit s /\ strip_units s = Raise IndexError).
Proof.
  destruct (strip_units_cases s) as [[Hm Hq]|[Hm He]].
  - left. split; [|exact Hq].
    intros Hn. apply Hm. apply no_number_iff_no_digit. exact Hn.
  - right. split; [|exact He]. apply no_number_iff_no_digit. exact Hm.
Qed.






(** ** [scrape_details] stops at the first page that fails *)

Lemma scrape_loop_app (html_parser : string -> soup)
      (its1 its2 : list (string * string)) :
  forall acc : list (dict value),
    scrape_loop html_parser (its1 ++ its2) acc =
      (out <- scrape_loop html_parser its1 acc ;;
       scrape_loop html_parser its2 out)%res.
Proof.
  induction its1 as [|[d raw] its1 IH]; intros acc; simpl; [reflexivity|].
  destruct (scrape_icao html_parser raw) as [icao|e|]; simpl;
    [apply IH | reflexivity | reflexivity].
Qed.

Lemma scrape_loop_all_ok (html_parser : string -> soup)
      (its : list (string * string)) :
  forall acc : list (dict value),
    (forall it, In it its -> exists r, scrape_icao html_parser (snd it) = Ok r) ->
    exists out, scrape_loop html_parser its acc = Ok out.
Proof.
  induction its as [|[d raw] its IH]; intros acc H; simpl.
  - exists acc. reflexivity.
  - destruct (H (d, raw) (or_introl eq_refl)) as [r Hr]. simpl in Hr.
    rewrite Hr. simpl. apply IH. intros it Hin. apply H. right. exact Hin.
Qed.

(** X3: [scrape_details] scrapes the pages of the mapping in its order
    and stops at the first page that does not scrape: it raises the
    exception of that page and returns none of the records scraped
    before it, whatever the pages after it hold. *)
Theorem scrape_details_first_failure (html_parser : string -> soup)
        (good : dict string) (d raw : string) (rest : dict string)
        (e : exn) :
  (forall it, In it good ->
              exists r, scrape_icao html_parser (snd it) = Ok r) ->
  scrape_icao html_parser raw = Raise e ->
  scrape_details html_parser (good ++ (d, raw) :: rest) = Raise e.
Proof.
  intros Hgood Hbad. unfold scrape_details. rewrite scrape_loop_app.
  destruct (scrape_loop_all_ok html_parser good [] Hgood) as [out ->].
  simpl. rewrite Hbad. reflexivity.
Qed.

Lemma scrape_details_first_failure_witness :
  let parser := table_parser demo_site in
  scrape_icao parser "broken.html" = Raise IndexError /\
  scrape_details parser
    ([("A001", "A001.html")] ++ ("B002", "broken.html")
       :: [("C003", "A001.html")]) = Raise IndexError.
Proof.
  cbv zeta. split; [reflexivity|].
  apply (scrape_details_first_failure (table_parser demo_site)
           [("A001", "A001.html")] "B002" "broken.html"
           [("C003", "A001.html")] IndexError).
  - intros it [<-|[]]. eexists. reflexivity.
  - reflexivity.
Defined.

(** ** The postback state and its request body *)

Lemma input_value_missing (doc : soup) (name : string) :
  select [tag_attr_eq "input" "name" name] doc = [] ->
  input_value doc name = Raise TypeError.
Proof.
  unfold input_value. intros ->. reflexivity.
Qed.

Lemma input_value_outcome (doc : soup) (name : string) :
  (exists v, input_value doc name = Ok v) \/
  input_value doc name = Raise TypeError \/
  input_value doc name = Raise KeyError.
Proof.
  unfold input_value.
  destruct (select [tag_attr_eq "input" "name" name] doc) as [|[t|n attrs kids] l];
    auto.
  destruct (dict_get "value" attrs); [left; eexists; reflexivity | auto].
Qed.

(** X4: [PageState.extract] gives a state only when the page has all
    three hidden inputs: when the input of one of the three names is
    missing it raises, with [TypeError] (the missing input is reached) or
    [KeyError] (an input before it has no value), and no state with
    blank fields is made. *)
Theorem PageState_extract_missing (doc : soup) (name : string) :
  In name STATE_FIELDS ->
  select [tag_attr_eq "input" "name" name] doc = [] ->
  PageState_extract doc = Raise TypeError \/
  PageState_extract doc = Raise KeyError.
Proof.
  intros Hin Hmiss. apply input_value_missing in Hmiss.
  unfold PageState_extract. simpl in Hin.
  destruct (input_value_outcome doc "__VIEWSTATE") as [[v1 E1]|[E1|E1]];
    rewrite E1; cbn [rbind]; auto.
  destruct (input_value_outcome doc "__VIEWSTATEGENERATOR")
    as [[v2 E2]|[E2|E2]]; rewrite E2; cbn [rbind]; auto.
  destruct (input_value_outcome doc "__EVENTVALIDATION")
    as [[v3 E3]|[E3|E3]]; rewrite E3; cbn [rbind]; auto.
  exfalso. destruct Hin as [<-|[<-|[<-|[]]]]; congruence.
Qed.

Lemma PageState_extract_missing_witness :
  let doc := [Tag "form" [] [hidden "__VIEWSTATE" "vs";
                             hidden "__EVENTVALIDATION" "ev"]] in
  select [tag_attr_eq "input" "name" "__VIEWSTATEGENERATOR"] doc = [] /\
  (PageState_extract doc = Raise TypeError \/
   PageState_extract doc = Raise KeyError).
Proof.
  cbv zeta. split; [reflexivity|].
  apply (PageState_extract_missing
           [Tag "form" [] [hidden "__VIEWSTATE" "vs";
                           hidden "__EVENTVALIDATION" "ev"]]
           "__VIEWSTATEGENERATOR").
  - simpl. auto.
  - reflexivity.
Defined.

(** X5: the body of a postback, [evt.data() | state.data()], has exactly
    the five ASP.NET fields, the two of the event first, and each field
    holds the value it was given: the state never overwrites the event,
    nor the event the state. *)
Theorem postback_body_fields (evt : PageEvent) (st : PageState) :
  let body := dict_union (PageEvent_data evt) (PageState_data st) in
  dict_keys body =
    ["__EVENTTARGET"; "__EVENTARGUMENT";
     "__VIEWSTATE"; "__VIEWSTATEGENERATOR"; "__EVENTVALIDATION"] /\
  dict_get "__EVENTTARGET" body = Some (event_target evt) /\
  dict_get "__EVENTARGUMENT" body = Some (event_argument evt) /\
  dict_get "__VIEWSTATE" body = Some (view_state st) /\
  dict_get "__VIEWSTATEGENERATOR" body = Some (view_state_generator st) /\
  dict_get "__EVENTVALIDATION" body = Some (event_validation st).
Proof.
  cbv zeta. repeat split; reflexivity.
Qed.

Lemma py_str_int_inj (i j : Z) : py_str_int i = py_str_int j -> i = j.
Proof.
  unfold py_str_int. intros H.
  apply DecimalZ.to_int_inj.
  assert (G : forall z, NilZero.int_of_string
                          (NilZero.string_of_int (Z.to_int z))
                        = Some (Z.to_int z)).
  { intros z. apply NilZero.isi.
    - destruct z; simpl; try discriminate.
      intros E. injection E as E. exact (DecimalPos.Unsigned.to_uint_nonnil _ E).
    - destruct z; simpl; try discriminate.
      intros E. injection E as E. exact (DecimalPos.Unsigned.to_uint_nonnil _ E). }
  pose proof (G i) as Gi. rewrite H, G in Gi. congruence.
Qed.

(** X6: the postbacks for two page numbers are the same request only when
    the page numbers are the same: [Page$n] names the page without
    ambiguity. *)
Theorem page_request_inj (i j : Z) (st : PageState) :
  page_request i st = page_request j st -> i = j.
Proof.
  unfold page_request. intros H.
  assert (E : dict_get "__EVENTARGUMENT"
                (dict_union (PageEvent_data (PageEvent_page i))
                            (PageState_data st)) =
              dict_get "__EVENTARGUMENT"
                (dict_union (PageEvent_data (PageEvent_page j))
                            (PageState_data st)))
    by congruence.
  cbn in E. apply py_str_int_inj. congruence.
Qed.

Lemma page_request_inj_witness :
  page_request 12 (demo_state "1") = page_request (10 + 2) (demo_state "1") /\
  12%Z = (10 + 2)%Z.
Proof.
  split; [reflexivity|].
  apply (page_request_inj 12 (10 + 2) (demo_state "1")). reflexivity.
Defined.

(** ** More on the listing-page scraper *)

Lemma ints_of_outcome (l : list string) :
  (exists ns, ints_of l = Ok ns) \/ ints_of l = Raise ValueError.
Proof.
  induction l as [|t l IH]; simpl; [left; eexists; reflexivity|].
  destruct (py_int_outcome t) as [[z ->]| ->]; cbn [rbind]; [|auto].
  destruct IH as [[ns ->]| ->]; cbn [rbind];
    [left; eexists; reflexivity | auto].
Qed.

(** X7: [max_page_no] raises [IndexError] exactly when the pager row has
    no link; once there is a link, whatever else goes wrong (a label that
    is no integer, no numeric label at all) is a [ValueError] and no other
    exception; and it always ends with a bound or an exception. *)
Theorem max_page_no_index_error (doc : soup) :
  (max_page_no doc = Raise IndexError <-> pager_links doc = []) /\
  (forall e, pager_links doc <> [] ->
             max_page_no doc = Raise e -> e = ValueError) /\
  settled (max_page_no doc).
Proof.
  assert (Hlinks : pager_links doc <> [] ->
                   (exists z, max_page_no doc = Ok z) \/
                   max_page_no doc = Raise ValueError).
  { intros Hne. unfold max_page_no.
    destruct (rev_last (pager_links doc) EmptyString Hne) as [rest ->].
    cbn [rbind].
    match goal with
    | |- context [ints_of ?x] =>
        destruct (ints_of_outcome x) as [[ns ->]| ->]
    end; cbn [rbind]; [|right; reflexivity].
    destruct (nodup Z.eq_dec ns); cbn [py_max rbind];
      [right; reflexivity | left; eexists; reflexivity]. }
  split; [split|split].
  - intros H. destruct (pager_links doc) as [|t l] eqn:El; [reflexivity|].
    exfalso. destruct Hlinks as [[z Hz]|Hv]; [discriminate| |]; congruence.
  - intros Hnil. unfold max_page_no. rewrite Hnil. reflexivity.
  - intros e Hne He. destruct (Hlinks Hne) as [[z Hz]|Hv]; congruence.
  - unfold settled.
    destruct (pager_links doc) as [|t l] eqn:El.
    + unfold max_page_no. rewrite El. discriminate.
    + destruct Hlinks as [[z Hz]|Hv]; [discriminate| |]; congruence.
Qed.

Lemma max_page_no_index_error_witness :
  let bare := listing "1" ["A001"] [current "1"] in
  let named := listing "1" ["A001"] [link "1"; link "Next"] in
  max_page_no bare = Raise IndexError /\
  max_page_no named = Raise ValueError /\
  (forall e, max_page_no named = Raise e -> e = ValueError).
Proof.
  cbv zeta. split; [|split].
  - apply (proj1 (max_page_no_index_error
                    (listing "1" ["A001"] [current "1"]))).
    reflexivity.
  - reflexivity.
  - intros e.
    apply (proj1 (proj2 (max_page_no_index_error
                           (listing "1" ["A001"] [link "1"; link "Next"])))).
    discriminate.
Defined.

(** X8: a pager row that has links but whose labels are all ["..."] has
    no page number to take the maximum of: [max_page_no] raises
    [ValueError], it does not return a bound of 0 or 1. *)
Theorem max_page_no_only_ellipsis (doc : soup) :
  pager_links doc <> [] ->
  (forall t, In t (pager_labels doc) -> t = ELLIPSIS) ->
  max_page_no doc = Raise ValueError.
Proof.
  intros Hl Hall. unfold max_page_no.
  destruct (rev_last (pager_links doc) EmptyString Hl) as [rest ->].
  cbn [rbind].
  match goal with
  | |- context [ints_of ?x] =>
      assert (Hnil : x = [])
  end.
  { match goal with |- ?x = [] => destruct x as [|t l] eqn:E end;
      [reflexivity|].
    exfalso.
    assert (Hin : In t (t :: l)) by (left; reflexivity).
    rewrite <- E in Hin. apply converted_labels in Hin.
    destruct Hin as [Hin Hne]. apply Hne, Hall, Hin. }
  rewrite Hnil. reflexivity.
Qed.

Lemma max_page_no_only_ellipsis_witness :
  let doc := listing "1" ["A001"] [link "..."; link "..."] in
  pager_labels doc = ["..."; "..."] /\
  max_page_no doc = Raise ValueError.
Proof.
  cbv zeta. split; [reflexivity|].
  apply (max_page_no_only_ellipsis
           (listing "1" ["A001"] [link "..."; link "..."])).
  - discriminate.
  - intros t Hin. simpl in Hin. destruct Hin as [<-|[<-|[]]]; reflexivity.
Defined.

(** *** Designators come out trimmed *)

Lemma lstrip_head (l : list ascii) :
  match lstrip l with
  | [] => True
  | c :: _ => is_space c = false
  end.
Proof.
  induction l as [|c l IH]; simpl; [exact I|].
  destruct (is_space c) eqn:E; [exact IH | exact E].
Qed.

Lemma lstrip_fixed (c : ascii) (l : list ascii) :
  is_space c = false -> lstrip (c :: l) = c :: l.
Proof.
  intros H. simpl. rewrite H. reflexivity.
Qed.

Lemma lstrip_keeps_last (l : list ascii) (c : ascii) :
  is_space c = false -> exists l', lstrip (l ++ [c]) = l' ++ [c].
Proof.
  intros H. induction l as [|d l IH]; simpl.
  - rewrite H. exists []. reflexivity.
  - destruct (is_space d); [exact IH|]. exists (d :: l). reflexivity.
Qed.

(** The characters [strip] leaves: none, or a text that neither starts nor
    ends with white space. *)
Lemma strip_shape (s : string) :
  chars (strip s) = [] \/
  exists c mid d,
    is_space c = false /\ is_space d = false /\
    (chars (strip s) = [c] \/ chars (strip s) = c :: mid ++ [d]).
Proof.
  unfold strip. rewrite chars_text_of.
  pose proof (lstrip_head (chars s)) as H1.
  destruct (lstrip (chars s)) as [|c l1]; [left; reflexivity|].
  right. simpl rev.
  destruct (lstrip_keeps_last (rev l1) c H1) as [l' E].
  rewrite E.
  pose proof (lstrip_head (rev l1 ++ [c])) as H2. rewrite E in H2.
  rewrite rev_app_distr. simpl.
  destruct l' as [|d l'].
  - exists c, [], c. auto.
  - simpl in H2. exists c, (rev l'), d. simpl. auto.
Qed.

Lemma strip_fixed_chars (l : list ascii) :
  l = [] \/
  (exists c mid d,
      is_space c = false /\ is_space d = false /\
      (l = [c] \/ l = c :: mid ++ [d])) ->
  strip (text_of l) = text_of l.
Proof.
  unfold strip. rewrite chars_text_of.
  intros [->|[c [mid [d [Hc [Hd [->| ->]]]]]]]; [reflexivity| |].
  - simpl. rewrite Hc. simpl. rewrite Hc. reflexivity.
  - rewrite (lstrip_fixed c _ Hc).
    replace (rev (c :: mid ++ [d])) with (d :: rev mid ++ [c]).
    + rewrite (lstrip_fixed d _ Hd).
      replace (rev (d :: rev mid ++ [c])) with (c :: mid ++ [d]);
        [reflexivity|].
      simpl. rewrite rev_app_distr, rev_involutive. reflexivity.
    + simpl. rewrite rev_app_distr. reflexivity.
Qed.

Lemma strip_idempotent (s : string) : strip (strip s) = strip s.
Proof.
  pose proof (strip_shape s) as H.
  rewrite <- (string_of_list_ascii_of_string (strip s)) at 1 2.
  apply strip_fixed_chars. exact H.
Qed.

Lemma strip_ends (s : string) :
  (forall c l, chars (strip s) = c :: l -> is_space c = false) /\
  (forall l c, chars (strip s) = l ++ [c] -> is_space c = false).
Proof.
  destruct (strip_shape s) as [E|[c [mid [d [Hc [Hd [E|E]]]]]]];
    rewrite E; split.
  - discriminate.
  - intros l c H. destruct l; discriminate.
  - intros c0 l H. injection H as <- _. exact Hc.
  - intros l c0 H. apply (app_inj_tail [] l c c0) in H.
    destruct H as [_ <-]. exact Hc.
  - intros c0 l H. injection H as <- _. exact Hc.
  - intros l c0 H. apply (app_inj_tail (c :: mid) l d c0) in H.
    destruct H as [_ <-]. exact Hd.
Qed.

(** X9: every designator [scrape_designators] returns is trimmed: it
    neither starts nor ends with white space, and stripping it again
    changes nothing; and there is one designator per selected link. *)
Theorem scrape_designators_trimmed (doc : soup) :
  (forall d, In d (scrape_designators doc) ->
     strip d = d /\
     (forall c l, chars d = c :: l -> is_space c = false) /\
     (forall l c, chars d = l ++ [c] -> is_space c = false)) /\
  List.length (scrape_designators doc)
    = List.length (select SEL_DESIGNATORS doc).
Proof.
  unfold scrape_designators. split.
  - intros d Hin. apply in_map_iff in Hin. destruct Hin as [e [<- _]].
    split; [apply strip_idempotent | apply strip_ends].
  - apply length_map.
Qed.

(** ** Pauses and files during the fetch phase *)

Section Frames.

Context {Server : Type}.
Variable respond : request -> Server -> result string * Server.
Variable html_parser : string -> soup.
Variable float_repr : Q -> string.

Lemma paced_bind {A B : Type} (a b c : Z) (m : IO Server A)
      (f : A -> IO Server B) :
  paced a b m -> (forall x, paced b c (f x)) -> paced a c (bind m f).
Proof.
  unfold paced, bind. intros Hm Hf w.
  destruct (Hm w) as [exs1 [Hh1 [Hb1 Hc1]]]. clear Hm.
  destruct (m w) as [[x|e|] w1] eqn:Em; cbn [fst snd] in *.
  - destruct Hc1 as [[Hall1 Hok1]|[exs0 [ex [_ [_ [_ [_ Hno]]]]]]];
      [|exfalso; exact (Hno x eq_refl)].
    specialize (Hok1 x eq_refl).
    destruct (Hf x w1) as [exs2 [Hh2 [Hb2 Hc2]]].
    assert (Hopen : open_requests a (exs1 ++ exs2) w (snd (f x w1)) =
                    open_requests b exs2 w1 (snd (f x w1))).
    { unfold open_requests, pauses_taken in *. rewrite length_app. lia. }
    exists (exs1 ++ exs2). rewrite Hh2, Hh1, app_assoc, Hopen.
    split; [reflexivity|]. split; [exact Hb2|].
    destruct Hc2 as [[Hall2 Hok2]|[exs0 [ex [E [Hall0 [Hex [Hone Hno]]]]]]].
    + left. split; [apply Forall_app; split; assumption | exact Hok2].
    + right. exists (exs1 ++ exs0), ex. subst exs2. rewrite app_assoc.
      split; [reflexivity|]. split; [apply Forall_app; split; assumption|].
      repeat split; assumption.
  - exists exs1. split; [exact Hh1|]. split; [exact Hb1|].
    destruct Hc1 as [[Hall1 _]|[exs0 [ex [E [Hall0 [Hex [Hone _]]]]]]].
    + left. split; [exact Hall1 | discriminate].
    + right. exists exs0, ex. repeat split; try assumption. discriminate.
  - exists exs1. split; [exact Hh1|]. split; [exact Hb1|].
    destruct Hc1 as [[Hall1 _]|[exs0 [ex [E [Hall0 [Hex [Hone _]]]]]]].
    + left. split; [exact Hall1 | discriminate].
    + right. exists exs0, ex. repeat split; try assumption. discriminate.
Qed.

Lemma paced_still {A : Type} (a : Z) (m : IO Server A) :
  (0 <= a <= 1)%Z ->
  (forall w, history (snd (m w)) = history w /\ sleeps (snd (m w)) = sleeps w) ->
  paced a a m.
Proof.
  unfold paced, open_requests, pauses_taken. intros Ha H w.
  destruct (H w) as [Hh Hs]. exists []. rewrite Hh, Hs, app_nil_r.
  cbn [List.length]. split; [reflexivity|]. split; [lia|].
  left. split; [constructor | intros; lia].
Qed.

Lemma paced_lift {A : Type} (a : Z) (r : result A) :
  (0 <= a <= 1)%Z -> paced (Server := Server) a a (lift r).
Proof. intros Ha. apply paced_still; [exact Ha | intros w; split; reflexivity]. Qed.

Lemma paced_ret {A : Type} (a : Z) (x : A) :
  (0 <= a <= 1)%Z -> paced (Server := Server) a a (ret x).
Proof. intros Ha. apply paced_still; [exact Ha | intros w; split; reflexivity]. Qed.

Lemma paced_send (q : request) : paced 0 1 (send respond q).
Proof.
  unfold paced, open_requests, pauses_taken, send. intros w.
  destruct (respond q (server w)) as [r srv]. cbn [fst snd history sleeps].
  exists [(q, r)]. cbn [List.length]. split; [reflexivity|]. split; [lia|].
  destruct r as [raw|e|].
  - left. split; [|intros; lia].
    constructor; [exists raw; reflexivity | constructor].
  - right. exists [], (q, Raise e). split; [reflexivity|].
    split; [constructor|]. split; [intros [raw H]; discriminate H|].
    split; [lia | discriminate].
  - right. exists [], (q, OutOfFuel). split; [reflexivity|].
    split; [constructor|]. split; [intros [raw H]; discriminate H|].
    split; [lia | discriminate].
Qed.

Lemma paced_wait : paced (Server := Server) 1 0 wait.
Proof.
  unfold paced, open_requests, pauses_taken, wait. intros w.
  cbn [fst snd sleeps history]. exists []. rewrite app_nil_r, Nat2Z.inj_succ.
  cbn [List.length]. split; [reflexivity|]. split; [lia|].
  left. split; [constructor | intros; lia].
Qed.

Lemma paced_retrieve_page (evt : PageEvent) (st : PageState) :
  paced 0 1 (retrieve_page respond html_parser evt st).
Proof.
  unfold retrieve_page, rq_post.
  eapply paced_bind; [apply paced_send|]. intros raw.
  eapply paced_bind; [apply paced_lift; lia|]. intros st'.
  apply paced_ret. lia.
Qed.

Lemma paced_walk_pages (fuel : nat) :
  forall (n max_page : Z) (st : PageState) (ds : list string),
    paced 0 0 (walk_pages respond html_parser fuel n max_page st ds).
Proof.
  induction fuel as [|fuel IH]; intros n max_page st ds; simpl;
    destruct (n <? max_page)%Z;
    try (apply paced_ret; lia); try (apply paced_lift; lia).
  eapply paced_bind; [apply paced_retrieve_page|]. intros [page st'].
  eapply paced_bind; [apply paced_lift; lia|]. intros m.
  eapply paced_bind; [apply paced_wait|]. intros _.
  apply IH.
Qed.

Lemma paced_retrieve_designators (fuel : nat) :
  paced 0 0 (retrieve_designators respond html_parser fuel).
Proof.
  unfold retrieve_designators, retrieve_front, rq_get.
  eapply paced_bind.
  - eapply paced_bind; [apply paced_send|]. intros raw.
    eapply paced_bind; [apply paced_lift; lia|]. intros st.
    apply paced_ret. lia.
  - intros [page st].
    eapply paced_bind; [apply paced_lift; lia|]. intros m.
    eapply paced_bind; [apply paced_wait|]. intros _.
    apply paced_walk_pages.
Qed.

Lemma paced_details_loop (ds : list string) :
  forall (details : list (dict value)) (pages : dict string),
    paced 0 0 (details_loop respond html_parser ds details pages).
Proof.
  induction ds as [|d ds IH]; intros details pages; simpl.
  - apply paced_ret. lia.
  - unfold retrieve_icao, rq_get.
    eapply paced_bind; [apply paced_send|]. intros raw.
    eapply paced_bind; [apply paced_lift; lia|]. intros icao.
    eapply paced_bind; [apply paced_wait|]. intros _.
    apply IH.
Qed.

Lemma paced_fetch_all (fuel : nat) :
  paced 0 0 (fetch_all respond html_parser fuel).
Proof.
  unfold fetch_all, retrieve_details.
  eapply paced_bind; [apply paced_retrieve_designators|]. intros ds.
  apply paced_details_loop.
Qed.

Lemma paced_write_csv (path : string) (details : list (dict value)) :
  paced 0 0 (write_csv (Server := Server) float_repr path details).
Proof.
  apply paced_still; [lia|]. intros w. unfold write_csv.
  destruct (writerows float_repr KEYS details _) as [r f].
  unfold bind, write_file, lift. simpl. split; reflexivity.
Qed.

Lemma removelast_unit {A : Type} (l : list A) (x : A) :
  removelast (l ++ [x]) = l.
Proof.
  induction l as [|y l IH]; [reflexivity|].
  cbn [app removelast]. rewrite IH.
  destruct (l ++ [x]) eqn:E; [destruct l; discriminate | reflexivity].
Qed.

Lemma Forall_removelast {A : Type} (P : A -> Prop) (l : list A) :
  Forall P l -> Forall P (removelast l).
Proof.
  induction 1 as [|x l Hx Hl IH]; [constructor|].
  cbn [removelast]. destruct l; [constructor|].
  constructor; assumption.
Qed.

(** X10: for every transport and however a run of [main] ends, the run has
    only added exchanges to the history, and it has taken as many pauses
    as it has made requests, or one fewer; as many when it succeeds.
    Every request but the last was answered with a page; when the last
    one was not, the run does not succeed and has taken exactly one pause
    fewer than it has made requests: the unanswered request is the only
    one no pause has followed. *)
Theorem main_is_paced (fuel : nat) (a : args) (w : world Server) :
  let out := main respond html_parser float_repr fuel a w in
  (pauses_taken w (snd out) <= requests_made w (snd out)
   <= pauses_taken w (snd out) + 1)%Z /\
  (fst out = Ok tt -> requests_made w (snd out) = pauses_taken w (snd out)) /\
  exists exs,
    history (snd out) = history w ++ exs /\
    Forall answered (removelast exs) /\
    (last_unanswered exs ->
       requests_made w (snd out) = (pauses_taken w (snd out) + 1)%Z /\
       fst out <> Ok tt).
Proof.
  assert (H : paced 0 0 (main respond html_parser float_repr fuel a)).
  { unfold main.
    eapply paced_bind with (b := 0%Z).
    - destruct (rawfile a) as [p|]; [|apply paced_fetch_all].
      eapply paced_bind; [apply paced_still; [lia | intros w0; split; reflexivity]|].
      intros cached. destruct cached; [|apply paced_fetch_all].
      eapply paced_bind; [apply paced_still; [lia | intros w0; split; reflexivity]|].
      intros pages.
      eapply paced_bind; [apply paced_lift; lia|]. intros details.
      apply paced_ret. lia.
    - intros [details pages].
      eapply paced_bind with (b := 0%Z); [|intros _; apply paced_write_csv].
      destruct (rawfile a) as [p|]; [|apply paced_ret; lia].
      eapply paced_bind; [apply paced_still; [lia | intros w0; split; reflexivity]|].
      intros present. destruct present; [apply paced_ret; lia|].
      apply paced_still; [lia | intros w0; split; reflexivity]. }
  cbv zeta. destruct (H w) as [exs [Hh [Hb Hc]]]. clear H.
  assert (Hreq : requests_made w
                   (snd (main respond html_parser float_repr fuel a w)) =
                 Z.of_nat (List.length exs)).
  { unfold requests_made. rewrite Hh, length_app. lia. }
  unfold open_requests in *. rewrite Hreq.
  split; [lia|]. split.
  - intros E. destruct Hc as [[_ Hok]|[exs0 [ex [_ [_ [_ [_ Hno]]]]]]].
    + specialize (Hok tt E). lia.
    + exfalso. exact (Hno tt E).
  - exists exs. split; [exact Hh|].
    destruct Hc as [[Hall _]|[exs0 [ex [E [Hall0 [Hex [Hone Hno]]]]]]].
    + split; [apply Forall_removelast; exact Hall|].
      unfold last_unanswered. intros Hlast. exfalso.
      destruct (rev exs) as [|ex l] eqn:Er; [exact Hlast|].
      apply Hlast. rewrite Forall_forall in Hall. apply Hall.
      apply in_rev. rewrite Er. left. reflexivity.
    + subst exs. rewrite removelast_unit. split; [exact Hall0|].
      intros _. split; [lia | apply Hno].
Qed.

End Frames.

Section Files.

Context {Server : Type}.
Variable respond : request -> Server -> result string * Server.
Variable html_parser : string -> soup.
Variable float_repr : Q -> string.

Lemma keeps_files_bind {A B : Type} (m : IO Server A) (f : A -> IO Server B) :
  keeps_files m -> (forall x, keeps_files (f x)) -> keeps_files (bind m f).
Proof.
  unfold keeps_files, bind. intros Hm Hf w. specialize (Hm w).
  destruct (m w) as [[x|e|] w1]; simpl in *; [|exact Hm|exact Hm].
  rewrite Hf. exact Hm.
Qed.

Lemma keeps_files_lift {A : Type} (r : result A) :
  keeps_files (Server := Server) (lift r).
Proof. intros w. reflexivity. Qed.

Lemma keeps_files_ret {A : Type} (x : A) :
  keeps_files (Server := Server) (ret x).
Proof. intros w. reflexivity. Qed.

Lemma keeps_files_send (q : request) : keeps_files (send respond q).
Proof.
  intros w. unfold send. destruct (respond q (server w)). reflexivity.
Qed.

Lemma keeps_files_wait : keeps_files (Server := Server) wait.
Proof. intros w. reflexivity. Qed.

Lemma keeps_files_walk_pages (fuel : nat) :
  forall (n max_page : Z) (st : PageState) (ds : list string),
    keeps_files (walk_pages respond html_parser fuel n max_page st ds).
Proof.
  induction fuel as [|fuel IH]; intros n max_page st ds; simpl;
    destruct (n <? max_page)%Z;
    try apply keeps_files_ret; try apply keeps_files_lift.
  unfold retrieve_page, rq_post.
  apply keeps_files_bind.
  - apply keeps_files_bind; [apply keeps_files_send|]. intros raw.
    apply keeps_files_bind; [apply keeps_files_lift|]. intros st'.
    apply keeps_files_ret.
  - intros [page st'].
    apply keeps_files_bind; [apply keeps_files_lift|]. intros m.
    apply keeps_files_bind; [apply keeps_files_wait|]. intros _.
    apply IH.
Qed.

Lemma keeps_files_retrieve_designators (fuel : nat) :
  keeps_files (retrieve_designators respond html_parser fuel).
Proof.
  unfold retrieve_designators, retrieve_front, rq_get.
  apply keeps_files_bind.
  - apply keeps_files_bind; [apply keeps_files_send|]. intros raw.
    apply keeps_files_bind; [apply keeps_files_lift|]. intros st.
    apply keeps_files_ret.
  - intros [page st].
    apply keeps_files_bind; [apply keeps_files_lift|]. intros m.
    apply keeps_files_bind; [apply keeps_files_wait|]. intros _.
    apply keeps_files_walk_pages.
Qed.

Lemma keeps_files_details_loop (ds : list string) :
  forall (details : list (dict value)) (pages : dict string),
    keeps_files (details_loop respond html_parser ds details pages).
Proof.
  induction ds as [|d ds IH]; intros details pages; simpl.
  - apply keeps_files_ret.
  - unfold retrieve_icao, rq_get.
    apply keeps_files_bind; [apply keeps_files_send|]. intros raw.
    apply keeps_files_bind; [apply keeps_files_lift|]. intros icao.
    apply keeps_files_bind; [apply keeps_files_wait|]. intros _.
    apply IH.
Qed.

Lemma keeps_files_fetch_all (fuel : nat) :
  keeps_files (fetch_all respond html_parser fuel).
Proof.
  unfold fetch_all, retrieve_details.
  apply keeps_files_bind; [apply keeps_files_retrieve_designators|].
  intros ds. apply keeps_files_details_loop.
Qed.



(** X11: when the first stage of a run of [main] raises - the fetch from
    the network when there is no cache file, the load or the scrape of the
    cache file when there is one - [main] raises that exception and has
    written nothing at that point: the files are exactly as they were, no
    cache file and no CSV.  The raw pages are dumped only after the whole
    fetch has succeeded.  With a cache file the world is untouched; without
    one the run ends in the world the fetch left. *)
Theorem main_failure_writes_nothing (fuel : nat) (a : args)
        (w : world Server) (e : exn) :
  first_stage_raises respond html_parser fuel a w e ->
  let out := main respond html_parser float_repr fuel a w in
  fst out = Raise e /\
  files (snd out) = files w /\
  snd out = match cache_file a w with
            | Some _ => w
            | None => snd (fetch_all respond html_parser fuel w)
            end.
Proof.
  unfold first_stage_raises, cache_file. intros H.
  assert (E : main respond html_parser float_repr fuel a w =
              (Raise e,
               match rawfile a with
               | Some p =>
                   match dict_get p (files w) with
                   | Some _ => w
                   | None => snd (fetch_all respond html_parser fuel w)
                   end
               | None => snd (fetch_all respond html_parser fuel w)
               end)).
  { unfold main. unfold bind at 1.
    destruct (rawfile a) as [p|].
    - unfold bind at 1. unfold path_exists at 1.
      destruct (dict_get p (files w)) as [f|] eqn:Ef.
      + unfold bind at 1. unfold pickle_load. rewrite Ef.
        destruct f as [pages|txt]; [|subst e; reflexivity].
        unfold bind at 1. unfold lift. rewrite H. reflexivity.
      + destruct (fetch_all respond html_parser fuel w) as [[x|e'|] w1];
          cbn [fst snd] in *; try discriminate.
        injection H as ->. reflexivity.
    - destruct (fetch_all respond html_parser fuel w) as [[x|e'|] w1];
        cbn [fst snd] in *; try discriminate.
      injection H as ->. reflexivity. }
  cbv zeta. rewrite E. cbn [fst snd]. clear E H.
  split; [reflexivity|].
  destruct (rawfile a) as [p|];
    [destruct (dict_get p (files w))|];
    (split; [|reflexivity]);
    reflexivity || apply keeps_files_fetch_all.
Qed.

End Files.

Lemma main_failure_writes_nothing_witness :
  let a := {| output := "out.csv"; rawfile := Some "raw.pkl" |} in
  let w := start_world ["page-1"] [("notes.txt", TextFile "keep")] in
  fst (main script_respond (table_parser demo_site) one_decimal 5 a w)
    = Raise TransportError /\
  files (snd (main script_respond (table_parser demo_site) one_decimal 5 a w))
    = [("notes.txt", TextFile "keep")].
Proof.
  cbv zeta.
  destruct (main_failure_writes_nothing script_respond
              (table_parser demo_site) one_decimal 5
              {| output := "out.csv"; rawfile := Some "raw.pkl" |}
              (start_world ["page-1"] [("notes.txt", TextFile "keep")])
              TransportError) as [H1 [H2 _]].
  - reflexivity.
  - split; [exact H1 | exact H2].
Defined.

(** ** The requests and the raw-page mapping of [retrieve_details] *)

Lemma dict_keys_set_present {V : Type} (k : string) (v : V) (d : dict V) :
  In k (dict_keys d) -> dict_keys (dict_set k v d) = dict_keys d.
Proof.
  induction d as [|[k' v'] d IH]; simpl; intros H; [contradiction|].
  destruct (String.eqb k k') eqn:E; simpl; [reflexivity|].
  rewrite IH; [reflexivity|].
  destruct H as [H|H]; [|exact H].
  apply String.eqb_neq in E. congruence.
Qed.

Lemma dict_keys_set {V : Type} (k : string) (v : V) (d : dict V) :
  (In k (dict_keys d) /\ dict_keys (dict_set k v d) = dict_keys d) \/
  (~ In k (dict_keys d) /\ dict_keys (dict_set k v d) = dict_keys d ++ [k]).
Proof.
  destruct (in_dec string_dec k (dict_keys d)) as [H|H].
  - left. split; [exact H | apply dict_keys_set_present; exact H].
  - right. split; [exact H|]. rewrite dict_set_fresh by exact H.
    unfold dict_keys. rewrite map_app. reflexivity.
Qed.

Lemma dict_set_keeps_nodup {V : Type} (k : string) (v : V) (d : dict V) :
  NoDup (dict_keys d) -> NoDup (dict_keys (dict_set k v d)).
Proof.
  intros H. destruct (dict_keys_set k v d) as [[_ ->]|[Hk ->]]; [exact H|].
  apply NoDup_app; [exact H | repeat constructor; intros [] |].
  intros x Hx [<-|[]]. contradiction.
Qed.

Lemma dict_set_keys_in {V : Type} (k : string) (v : V) (d : dict V)
      (x : string) :
  In x (dict_keys (dict_set k v d)) <-> x = k \/ In x (dict_keys d).
Proof.
  destruct (dict_keys_set k v d) as [[Hk ->]|[Hk ->]].
  - split; [auto | intros [->|H]; assumption].
  - rewrite in_app_iff. simpl. split.
    + intros [H|[<-|[]]]; auto.
    + intros [->|H]; auto.
Qed.

Section DetailRequests.

Context {Server : Type}.
Variable respond : request -> Server -> result string * Server.
Variable html_parser : string -> soup.

Lemma details_loop_stops (ds : list string) :
  forall (acc : list (dict value)) (pages : dict string) (w : world Server)
         (r : result (list (dict value) * dict string)) (w' : world Server),
    details_loop respond html_parser ds acc pages w = (r, w') ->
    exists raws : list string,
      Forall (scrapes html_parser) raws /\
      sleeps w' = (sleeps w + List.length raws)%nat /\
      ((exists details pages',
           r = Ok (details, pages') /\
           List.length raws = List.length ds /\
           history w' = history w ++ fetched ds raws /\
           (exists records,
               details = acc ++ records /\
               Forall2 (fun raw record =>
                          scrape_icao html_parser raw = Ok record)
                       raws records) /\
           (NoDup (dict_keys pages) -> NoDup (dict_keys pages')) /\
           (forall d, In d (dict_keys pages') <->
                      In d (dict_keys pages) \/ In d ds)) \/
       (exists d resp,
           nth_error ds (List.length raws) = Some d /\
           history w' =
             history w ++ fetched ds raws ++ [(GET (details_url d), resp)] /\
           stopped_by html_parser resp r)).
Proof.
  induction ds as [|d ds IH]; intros acc pages w r w' H; simpl in H.
  - unfold ret in H. injection H as <- <-.
    exists []. split; [constructor|]. split; [simpl; lia|].
    left. exists acc, pages. split; [reflexivity|]. split; [reflexivity|].
    split; [simpl; rewrite app_nil_r; reflexivity|].
    split; [exists []; rewrite app_nil_r; split; [reflexivity | constructor]|].
    split; [auto|].
    intros x. split; [auto | intros [Hd|[]]; exact Hd].
  - unfold bind at 1 in H. unfold retrieve_icao, rq_get, send in H.
    change (URL ++ "details.aspx?ICAO=" ++ d)%string with (details_url d) in H.
    destruct (respond (GET (details_url d)) (server w)) as [[raw|e|] srv].
    + unfold bind at 1, lift in H. rewrite dict_get_set_same in H.
      destruct (scrape_icao html_parser raw) as [icao|e|] eqn:Es.
      * unfold bind at 1, wait in H.
        apply IH in H. destruct H as [raws [Hall [Hs Hcase]]].
        cbn [history sleeps] in Hs, Hcase.
        exists (raw :: raws).
        split; [constructor; [exists icao; exact Es | exact Hall]|].
        split; [rewrite Hs; simpl; lia|].
        destruct Hcase as [[details [pages' [-> [Hlen [Hh [Hrec [Hnd Hin]]]]]]]
                          |[d' [resp [Hnth [Hh Hstop]]]]].
        -- left. exists details, pages'. split; [reflexivity|].
           split; [simpl; rewrite Hlen; reflexivity|].
           split; [rewrite Hh, <- app_assoc; reflexivity|].
           split.
           ++ destruct Hrec as [records [-> HF]].
              exists (icao :: records). rewrite <- app_assoc.
              split; [reflexivity | constructor; assumption].
           ++ split; [intros Hp; apply Hnd, dict_set_keeps_nodup, Hp|].
              intros x. rewrite Hin, dict_set_keys_in. split.
              ** intros [[->|Hx]|Hx]; simpl; auto.
              ** intros [Hx|[<-|Hx]]; auto.
        -- right. exists d', resp. split; [exact Hnth|].
           split; [rewrite Hh, <- app_assoc; reflexivity | exact Hstop].
      * injection H as <- <-. exists [].
        split; [constructor|]. split; [simpl; lia|].
        right. exists d, (Ok raw). split; [reflexivity|].
        split; [reflexivity|].
        left. exists e. split; [reflexivity|]. right. exists raw. auto.
      * exfalso. exact (scrape_icao_settled html_parser raw Es).
    + injection H as <- <-. exists [].
      split; [constructor|]. split; [simpl; lia|].
      right. exists d, (Raise e). split; [reflexivity|].
      split; [reflexivity|]. left. exists e. auto.
    + injection H as <- <-. exists [].
      split; [constructor|]. split; [simpl; lia|].
      right. exists d, OutOfFuel. split; [reflexivity|].
      split; [reflexivity|]. right. auto.
Qed.

(** X12: [retrieve_details] asks for the detail pages of the designators
    in order, one [GET] each to the details address, pauses once after
    each page it has scraped, and stops at the first designator whose
    request the transport fails or whose page does not scrape.  Either it
    returns: then every designator was fetched, the records are the
    scrapes of the pages in order (a repeated designator gives a repeated
    record), and the raw-page mapping has each designator once as a key.
    Or it raises: then the history ends with the request for the
    designator it stopped at, every request before it was answered by a
    page that scrapes, nothing was requested after it, and the exception
    is the one of the transport or of the scraper on that page. *)
Theorem retrieve_details_requests (ds : list string) (w : world Server) :
  let out := retrieve_details respond html_parser ds w in
  exists raws : list string,
    Forall (scrapes html_parser) raws /\
    sleeps (snd out) = (sleeps w + List.length raws)%nat /\
    ((exists details pages,
         fst out = Ok (details, pages) /\
         List.length raws = List.length ds /\
         history (snd out) = history w ++ fetched ds raws /\
         Forall2 (fun raw record => scrape_icao html_parser raw = Ok record)
                 raws details /\
         NoDup (dict_keys pages) /\
         (forall d, In d (dict_keys pages) <-> In d ds)) \/
     (exists d resp,
         nth_error ds (List.length raws) = Some d /\
         history (snd out) =
           history w ++ fetched ds raws ++ [(GET (details_url d), resp)] /\
         stopped_by html_parser resp (fst out))).
Proof.
  cbv zeta. unfold retrieve_details.
  destruct (details_loop respond html_parser ds [] [] w) as [r w'] eqn:E.
  destruct (details_loop_stops ds [] [] w r w' E)
    as [raws [Hall [Hs Hcase]]].
  exists raws. cbn [fst snd].
  split; [exact Hall|]. split; [exact Hs|].
  destruct Hcase as [[details [pages' [-> [Hlen [Hh [Hrec [Hnd Hin]]]]]]]|Hstop];
    [left | right; exact Hstop].
  exists details, pages'. split; [reflexivity|]. split; [exact Hlen|].
  split; [exact Hh|].
  destruct Hrec as [records [-> HF]].
  split; [exact HF|]. split; [apply Hnd; constructor|].
  intros x. rewrite Hin. simpl. tauto.
Qed.

End DetailRequests.

(** ** From a live run to the cache and back *)



Section Replay.

Context {Server : Type}.
Variable respond : request -> Server -> result string * Server.
Variable html_parser : string -> soup.
Variable float_repr : Q -> string.

Lemma details_loop_replay (ds : list string) :
  forall (acc : list (dict value)) (pages0 : dict string)
         (w : world Server) (details : list (dict value))
         (pages : dict string) (w' : world Server),
    details_loop respond html_parser ds acc pages0 w
      = (Ok (details, pages), w') ->
    NoDup (dict_keys pages0 ++ ds) ->
    exists its,
      dict_keys its = ds /\
      pages = pages0 ++ its /\
      scrape_loop html_parser its acc = Ok details.
Proof.
  induction ds as [|d ds IH]; intros acc pages0 w details pages w' H Hnd;
    simpl in H.
  - unfold ret in H. injection H as <- <- _.
    exists []. rewrite app_nil_r. auto.
  - unfold bind at 1 in H. unfold retrieve_icao, rq_get, send in H.
    destruct (respond _ (server w)) as [[raw|e|] srv]; try discriminate.
    unfold bind at 1, lift in H. rewrite dict_get_set_same in H.
    destruct (scrape_icao html_parser raw) as [icao|e|] eqn:E;
      try discriminate.
    unfold bind at 1, wait in H.
    assert (Hfresh : ~ In d (dict_keys pages0)).
    { apply NoDup_remove_2 in Hnd. intros Hin. apply Hnd.
      apply in_or_app. left. exact Hin. }
    rewrite (dict_set_fresh d raw pages0 Hfresh) in H.
    apply IH in H.
    + destruct H as [its [Hk [Hp Hs]]].
      exists ((d, raw) :: its). simpl. rewrite Hk, Hp, E, <- app_assoc.
      simpl. auto.
    + unfold dict_keys. rewrite map_app, <- app_assoc. exact Hnd.
Qed.

Lemma cache_replay_helper (ds : list string) (w w' : world Server)
      (details : list (dict value)) (pages : dict string) :
  NoDup ds ->
  retrieve_details respond html_parser ds w = (Ok (details, pages), w') ->
  dict_keys pages = ds /\
  scrape_details html_parser pages = Ok details.
Proof.
  intros Hnd H. unfold retrieve_details in H.
  destruct (details_loop_replay ds [] [] w details pages w' H Hnd)
    as [its [Hk [-> Hs]]].
  split; [exact Hk | exact Hs].
Qed.

(** X13: for any transport, when the designators are distinct and
    [retrieve_details] returns, the raw-page mapping it returns has the
    designators as its keys, in order, and scraping that mapping with
    [scrape_details] gives back the very records of the live run. *)
Theorem cache_replays_live_details (ds : list string) (w w' : world Server)
        (details : list (dict value)) (pages : dict string) :
  NoDup ds ->
  retrieve_details respond html_parser ds w = (Ok (details, pages), w') ->
  dict_keys pages = ds /\
  scrape_details html_parser pages = Ok details.
Proof.
  intros Hnd H. exact (cache_replay_helper ds w w' details pages Hnd H).
Qed.



End Replay.

Lemma cache_replays_live_details_witness :
  let parser := table_parser demo_site in
  let pages := [("A001", "A001.html")] in
  dict_keys pages = ["A001"] /\
  scrape_details parser pages = Ok [demo_record].
Proof.
  cbv zeta.
  apply (cache_replays_live_details
           (mapping_respond [("A001", "A001.html")])
           (table_parser demo_site)
           ["A001"] (start_world tt [])
           (snd (retrieve_details (mapping_respond [("A001", "A001.html")])
                   (table_parser demo_site) ["A001"] (start_world tt [])))
           [demo_record] [("A001", "A001.html")]).
  - repeat constructor. intros [].
  - reflexivity.
Defined.


(** ** What a successful run writes *)

Section MainFiles.

Context {Server : Type}.
Variable respond : request -> Server -> result string * Server.
Variable html_parser : string -> soup.
Variable float_repr : Q -> string.


(** X16: a front page whose bound is 1 or less ends the walk where it
    began: for every transport and every fuel, [retrieve_designators]
    makes the one [GET], no postback, takes one pause and returns the
    designators of the front page. *)
Theorem retrieve_designators_single_page (fuel : nat) (w : world Server)
        (raw : string) (srv : Server) (st : PageState) (b : Z) :
  respond (GET URL) (server w) = (Ok raw, srv) ->
  PageState_extract (html_parser raw) = Ok st ->
  max_page_no (html_parser raw) = Ok b ->
  (b <= 1)%Z ->
  retrieve_designators respond html_parser fuel w =
    (Ok (scrape_designators (html_parser raw)),
     {| server := srv;
        history := history w ++ [(GET URL, Ok raw)];
        sleeps := S (sleeps w);
        files := files w |}).
Proof.
  intros Hr Hst Hb Hle. unfold retrieve_designators.
  unfold bind at 1. unfold retrieve_front, bind at 1, rq_get, send.
  rewrite Hr. unfold bind at 1, lift. rewrite Hst. unfold ret.
  unfold bind at 1. rewrite Hb. unfold bind at 1, wait.
  cbn [server history sleeps files].
  assert (Hn : (1 <? b)%Z = false) by (apply Z.ltb_ge; lia).
  destruct fuel; simpl; rewrite Hn; reflexivity.
Qed.

End MainFiles.


Lemma retrieve_designators_single_page_witness :
  let parser := table_parser
                  [("only", listing "1" ["A001"; "A001"] [link "1"])] in
  retrieve_designators script_respond parser 0
    (start_world ["only"; "unused"] []) =
    (Ok ["A001"; "A001"],
     {| server := ["unused"];
        history := [(GET URL, Ok "only")];
        sleeps := 1;
        files := [] |}).
Proof.
  cbv zeta.
  apply (retrieve_designators_single_page script_respond
           (table_parser [("only", listing "1" ["A001"; "A001"] [link "1"])])
           0 (start_world ["only"; "unused"] [])
           "only" ["unused"] (demo_state "1") 1%Z).
  - reflexivity.
  - reflexivity.
  - reflexivity.
  - lia.
Defined.

(** ** What a completed walk has collected, for any transport *)

Section WalkResult.

Context {Server : Type}.
Variable respond : request -> Server -> result string * Server.
Variable html_parser : string -> soup.

Lemma walk_pages_result (fuel : nat) :
  forall (n max_page : Z) (st : PageState) (ds ds' : list string)
         (w w' : world Server),
    walk_pages respond html_parser fuel n max_page st ds w = (Ok ds', w') ->
    exists (exs : list exchange) (raws : list string),
      history w' = history w ++ exs /\
      map snd exs = map Ok raws /\
      ds' = ds ++ List.concat
                    (map (fun raw => scrape_designators (html_parser raw))
                         raws) /\
      (max_page <= n + Z.of_nat (List.length raws))%Z /\
      (forall raw, In raw raws ->
         exists b, max_page_no (html_parser raw) = Ok b /\
                   (b <= n + Z.of_nat (List.length raws))%Z).
Proof.
  induction fuel as [|fuel IH]; intros n max_page st ds ds' w w' H;
    simpl in H; destruct (n <? max_page)%Z eqn:Hn;
    try discriminate;
    try (unfold ret in H; injection H as <- <-;
         exists [], []; rewrite !app_nil_r; simpl;
         apply Z.ltb_ge in Hn;
         repeat split; try lia; intros raw []).
  unfold bind at 1 in H. unfold retrieve_page, bind at 1, rq_post, send in H.
  destruct (respond _ (server w)) as [[raw|e|] srv]; try discriminate.
  unfold bind at 1, lift in H.
  destruct (PageState_extract (html_parser raw)) as [st'|e|];
    try discriminate.
  unfold ret in H. unfold bind at 1 in H.
  destruct (max_page_no (html_parser raw)) as [m|e|] eqn:Em;
    try discriminate.
  unfold bind at 1, wait in H.
  apply IH in H. destruct H as [exs [raws [Hh [Hr [Hd [Hmax Hall]]]]]].
  cbn [history] in Hh.
  eexists (_ :: exs), (raw :: raws).
  rewrite Hh, <- app_assoc.
  split; [reflexivity|]. split; [simpl; rewrite Hr; reflexivity|].
  split; [rewrite Hd, <- app_assoc; reflexivity|].
  cbn [List.length]. rewrite Nat2Z.inj_succ.
  split; [lia|].
  intros raw0 [<-|Hin].
  - exists m. split; [exact Em | lia].
  - destruct (Hall raw0 Hin) as [b [Hb Hle]]. exists b. split; [exact Hb | lia].
Qed.

(** X17: for any transport, when [retrieve_designators] returns, every
    request it made was answered, the designators it returns are those of
    the pages received, joined in the order received and not
    deduplicated, and it has not stopped early: no page it received
    reports a bound larger than the number of pages it fetched. *)
Theorem retrieve_designators_result (fuel : nat) (w w' : world Server)
        (ds : list string) :
  retrieve_designators respond html_parser fuel w = (Ok ds, w') ->
  exists (exs : list exchange) (raws : list string),
    history w' = history w ++ exs /\
    map snd exs = map Ok raws /\
    ds = List.concat
           (map (fun raw => scrape_designators (html_parser raw)) raws) /\
    (forall raw, In raw raws ->
       exists b, max_page_no (html_parser raw) = Ok b /\
                 (b <= Z.of_nat (List.length raws))%Z).
Proof.
  intros H. unfold retrieve_designators in H.
  unfold bind at 1 in H. unfold retrieve_front, bind at 1, rq_get, send in H.
  destruct (respond (GET URL) (server w)) as [[raw|e|] srv]; try discriminate.
  unfold bind at 1, lift in H.
  destruct (PageState_extract (html_parser raw)) as [st|e|]; try discriminate.
  unfold ret in H. unfold bind at 1 in H.
  destruct (max_page_no (html_parser raw)) as [m|e|] eqn:Em; try discriminate.
  unfold bind at 1, wait in H.
  apply walk_pages_result in H.
  destruct H as [exs [raws [Hh [Hr [Hd [Hmax Hall]]]]]].
  cbn [history] in Hh.
  eexists (_ :: exs), (raw :: raws).
  rewrite Hh, <- app_assoc.
  split; [reflexivity|]. split; [simpl; rewrite Hr; reflexivity|].
  split; [rewrite Hd; reflexivity|].
  cbn [List.length]. rewrite Nat2Z.inj_succ.
  intros raw0 [<-|Hin].
  - exists m. split; [exact Em | lia].
  - destruct (Hall raw0 Hin) as [b [Hb Hle]]. exists b. split; [exact Hb | lia].
Qed.

End WalkResult.

Lemma retrieve_designators_result_witness :
  let parser := table_parser demo_site in
  let w := start_world ["page-1"; "page-2"; "page-3"] [] in
  fst (retrieve_designators script_respond parser 2 w)
    = Ok ["A001"; "B002"; "B002"; "C003"; "D004"] /\
  exists (exs : list exchange) (raws : list string),
    history (snd (retrieve_designators script_respond parser 2 w))
      = history w ++ exs /\
    map snd exs = map Ok raws /\
    ["A001"; "B002"; "B002"; "C003"; "D004"] =
      List.concat (map (fun raw => scrape_designators (parser raw)) raws) /\
    (forall raw, In raw raws ->
       exists b, max_page_no (parser raw) = Ok b /\
                 (b <= Z.of_nat (List.length raws))%Z).
Proof.
  cbv zeta. split; [reflexivity|].
  apply (retrieve_designators_result script_respond (table_parser demo_site)
           2 (start_world ["page-1"; "page-2"; "page-3"] [])
           (snd (retrieve_designators script_respond (table_parser demo_site)
                   2 (start_world ["page-1"; "page-2"; "page-3"] [])))
           ["A001"; "B002"; "B002"; "C003"; "D004"]).
  reflexivity.
Defined.
